(** * Chore ledger: shallow embedding of src/main.py (models, dashboards,
    submission, approval, fines and payments).

    Money amounts (SQL Float columns) are modelled as exact integers
    (cents); the dashboards' balances are also read with float money, as
    Python adds them (section "Money as Python floats"); timestamps as a day ordinal plus seconds in the day, the day
    ordinal following Python's [date.toordinal] (0001-01-01 = 1, a Monday). *)

From Stdlib Require Import ZArith List String Bool Lia Permutation.
From Stdlib Require PrimFloat Uint63.
Import ListNotations.
#[local] Set Warnings "-inexact-float".
Open Scope Z_scope.

(* ------------------------------------------------------------------ *)
(** ** Data model (SQLAlchemy models) *)

Inductive role := Parent | Child.

Record User := mkUser {
  user_id : Z;
  username : string;
  user_role : role
}.

Record ChoreType := mkChoreType {
  ct_id : Z;
  ct_name : string;
  ct_description : string;
  ct_value : Z;
  sunday_limit : Z;
  monday_limit : Z;
  tuesday_limit : Z;
  wednesday_limit : Z;
  thursday_limit : Z;
  friday_limit : Z;
  saturday_limit : Z;
  active : bool
}.

(** A [datetime]: [func.date] keeps only [ts_day]. *)
Record Timestamp := mkTs { ts_day : Z; ts_secs : Z }.

Inductive Status := Pending | Approved.

Record ChoreSubmission := mkSub {
  sub_id : Z;
  sub_user_id : Z;
  sub_chore_type_id : Z;
  status : Status;
  date_submitted : Timestamp;
  date_approved : option Timestamp;
  notes : option string
}.

Inductive TxType := TxChore | TxFine | TxPayment.

Record Transaction := mkTx {
  tx_id : Z;
  tx_user_id : Z;
  tx_type : TxType;
  tx_description : string;
  amount : Z;
  tx_date : Timestamp
}.

(** The database: one list per table, in row order. *)
Record Store := mkStore {
  users : list User;
  chore_types : list ChoreType;
  submissions : list ChoreSubmission;
  transactions : list Transaction
}.

(* ------------------------------------------------------------------ *)
(** ** [ChoreType.get_limit_for_day]

    [limits[day_of_week]] on a 7-element Python list: indices 0..6 read
    the slot, -7..-1 count from the end, anything else raises
    [IndexError] (here [None]). *)

Definition limits (c : ChoreType) : list Z :=
  [sunday_limit c; monday_limit c; tuesday_limit c; wednesday_limit c;
   thursday_limit c; friday_limit c; saturday_limit c].

Definition py_index {A} (l : list A) (i : Z) : option A :=
  let n := Z.of_nat (List.length l) in
  if (0 <=? i) && (i <? n) then nth_error l (Z.to_nat i)
  else if (- n <=? i) && (i <? 0) then nth_error l (Z.to_nat (n + i))
  else None.

Definition get_limit_for_day (c : ChoreType) (day_of_week : Z) : option Z :=
  py_index (limits c) day_of_week.

(** The weekday slot as the spec names it: Sunday = 0 ... Saturday = 6. *)
Definition weekday_slot_spec (c : ChoreType) (d : Z) : option Z :=
  if d =? 0 then Some (sunday_limit c)
  else if d =? 1 then Some (monday_limit c)
  else if d =? 2 then Some (tuesday_limit c)
  else if d =? 3 then Some (wednesday_limit c)
  else if d =? 4 then Some (thursday_limit c)
  else if d =? 5 then Some (friday_limit c)
  else if d =? 6 then Some (saturday_limit c)
  else None.

(* ------------------------------------------------------------------ *)
(** ** Dates *)

(** [date.weekday()]: Monday = 0 ... Sunday = 6. *)
Definition py_weekday (day : Z) : Z := (day + 6) mod 7.

(** [db_weekday = (today.weekday() + 1) % 7]. *)
Definition db_weekday (day : Z) : Z := (py_weekday day + 1) mod 7.

(** Weekday of a day ordinal in the spec's convention (Sunday = 0):
    ordinal 1 is a Monday, ordinal 7 a Sunday. *)
Definition sunday_based_weekday (day : Z) : Z := day mod 7.

(* ------------------------------------------------------------------ *)
(** ** Query helpers *)

(** [sub.chore_type]: the relationship loads the row with that primary
    key; a dangling reference makes [.value] an [AttributeError] on [None]. *)
Definition find_chore_type (cts : list ChoreType) (id : Z) : option ChoreType :=
  find (fun c => ct_id c =? id) cts.

Definition sub_value (st : Store) (s : ChoreSubmission) : option Z :=
  option_map ct_value (find_chore_type (chore_types st) (sub_chore_type_id s)).

(** Python's [sum] over a generator: a left fold from 0, raising at the
    first element that cannot be computed. *)
Fixpoint py_sum_opt (acc : Z) (l : list (option Z)) : option Z :=
  match l with
  | [] => Some acc
  | None :: _ => None
  | Some v :: r => py_sum_opt (acc + v) r
  end.

Definition py_sum (l : list Z) : Z := fold_left Z.add l 0.

Definition status_eqb (a b : Status) : bool :=
  match a, b with
  | Pending, Pending | Approved, Approved => true
  | _, _ => false
  end.

Definition tx_type_eqb (a b : TxType) : bool :=
  match a, b with
  | TxChore, TxChore | TxFine, TxFine | TxPayment, TxPayment => true
  | _, _ => false
  end.

Definition role_eqb (a b : role) : bool :=
  match a, b with
  | Parent, Parent | Child, Child => true
  | _, _ => false
  end.

(** [ORDER BY]: an insertion sort; [before x y] says [x] is placed ahead
    of [y]. *)
Fixpoint insert_by {A} (before : A -> A -> bool) (x : A) (l : list A) : list A :=
  match l with
  | [] => [x]
  | y :: r => if before x y then x :: l else y :: insert_by before x r
  end.

Definition sort_by {A} (before : A -> A -> bool) (l : list A) : list A :=
  fold_right (insert_by before) [] l.

Definition ts_ltb (a b : Timestamp) : bool :=
  (ts_day a <? ts_day b) || ((ts_day a =? ts_day b) && (ts_secs a <? ts_secs b)).

(** [.order_by(X.desc())] on a timestamp column. *)
Definition ts_desc {A} (key : A -> Timestamp) (x y : A) : bool :=
  ts_ltb (key y) (key x).

(** [.order_by(date_approved.desc())]: SQLite puts NULLs last. *)
Definition opt_ts_desc {A} (key : A -> option Timestamp) (x y : A) : bool :=
  match key x, key y with
  | Some a, Some b => ts_ltb b a
  | Some _, None => true
  | None, _ => false
  end.

Definition by_name (x y : ChoreType) : bool := String.ltb (ct_name x) (ct_name y).

(** [ChoreSubmission.query.filter(user_id == u, chore_type_id == c,
    func.date(date_submitted) == today).count()]. *)
Definition today_submissions (st : Store) (u c today : Z) : Z :=
  Z.of_nat (List.length
    (filter (fun s => (sub_user_id s =? u) && (sub_chore_type_id s =? c)
                      && (ts_day (date_submitted s) =? today))
            (submissions st))).

(** [Transaction.query.filter_by(user_id=u, type=k)]. *)
Definition txs_of (st : Store) (u : Z) (k : TxType) : list Transaction :=
  filter (fun t => (tx_user_id t =? u) && tx_type_eqb (tx_type t) k)
         (transactions st).

(** A Python dict updated by [d[k] = v]: an existing key keeps its place. *)
Fixpoint dict_set {V} (k : Z) (v : V) (d : list (Z * V)) : list (Z * V) :=
  match d with
  | [] => [(k, v)]
  | (k', v') :: r => if k' =? k then (k, v) :: r else (k', v') :: dict_set k v r
  end.

(* ------------------------------------------------------------------ *)
(** ** [child_dashboard] *)

Record Availability := mkAvail {
  can_submit : bool;
  today_count : Z;
  limit : Z;
  remaining : option Z  (** [None] for unlimited *)
}.

(** The body of the availability loop for one chore type. *)
Definition availability_for (st : Store) (u today : Z) (c : ChoreType)
  : option Availability :=
  let cnt := today_submissions st u (ct_id c) today in
  match get_limit_for_day c (db_weekday today) with
  | None => None
  | Some lim =>
      Some (mkAvail ((lim =? 0) || (cnt <? lim)) cnt lim
                    (if lim =? 0 then None else Some (Z.max 0 (lim - cnt))))
  end.

Fixpoint availability_loop (st : Store) (u today : Z) (cts : list ChoreType)
  (d : list (Z * Availability)) : option (list (Z * Availability)) :=
  match cts with
  | [] => Some d
  | c :: r =>
      match availability_for st u today c with
      | None => None
      | Some a => availability_loop st u today r (dict_set (ct_id c) a d)
      end
  end.

Record ChildView := mkChildView {
  cv_chore_types : list ChoreType;
  cv_submissions : list ChoreSubmission;
  cv_pending_earnings : Z;
  cv_approved_earnings : Z;
  cv_total_fines : Z;
  cv_balance : Z;
  cv_chore_availability : list (Z * Availability)
}.

(** [child_dashboard] for the logged-in child [u] on day [today];
    [None] when the handler raises. *)
Definition child_dashboard (st : Store) (u today : Z) : option ChildView :=
  let cts := sort_by by_name (filter active (chore_types st)) in
  let subs := sort_by (ts_desc date_submitted)
                (filter (fun s => sub_user_id s =? u) (submissions st)) in
  match py_sum_opt 0 (map (sub_value st)
          (filter (fun s => status_eqb (status s) Pending) subs)) with
  | None => None
  | Some pending_earnings =>
  match py_sum_opt 0 (map (sub_value st)
          (filter (fun s => status_eqb (status s) Approved) subs)) with
  | None => None
  | Some approved_earnings =>
  let total_fines := py_sum (map amount (txs_of st u TxFine)) in
  let total_payments := py_sum (map amount (txs_of st u TxPayment)) in
  let balance := approved_earnings - total_fines - total_payments in
  match availability_loop st u today cts [] with
  | None => None
  | Some avail =>
      Some (mkChildView cts subs pending_earnings approved_earnings
                        total_fines balance avail)
  end end end.

(* ------------------------------------------------------------------ *)
(** ** [parent_dashboard] *)

Record ParentView := mkParentView {
  pv_child : User;
  pv_pending_submissions : list ChoreSubmission;
  pv_approved_submissions : list ChoreSubmission;
  pv_transactions : list Transaction;
  pv_current_balance : Z;
  pv_total_payments : Z;
  pv_chore_types : list ChoreType
}.

Inductive ParentResult :=
  | ParentNoChild        (** "No child account found" *)
  | ParentCrash          (** the handler raises *)
  | ParentPage (v : ParentView).

(** [User.query.filter_by(role="child").first()]. *)
Definition first_child (st : Store) : option User :=
  find (fun x => role_eqb (user_role x) Child) (users st).

Definition parent_dashboard (st : Store) : ParentResult :=
  match first_child st with
  | None => ParentNoChild
  | Some child =>
  let cid := user_id child in
  let pending := sort_by (ts_desc date_submitted)
        (filter (fun s => (sub_user_id s =? cid) && status_eqb (status s) Pending)
                (submissions st)) in
  let all_approved :=
        filter (fun s => (sub_user_id s =? cid) && status_eqb (status s) Approved)
               (submissions st) in
  let approved_recent := firstn 20 (sort_by (opt_ts_desc date_approved) all_approved) in
  match py_sum_opt 0 (map (sub_value st) all_approved) with
  | None => ParentCrash
  | Some approved_earnings =>
  let total_fines := py_sum (map amount (txs_of st cid TxFine)) in
  let total_payments := py_sum (map amount (txs_of st cid TxPayment)) in
  let txs := sort_by (ts_desc tx_date)
               (filter (fun t => tx_user_id t =? cid) (transactions st)) in
  let current_balance := approved_earnings - total_fines - total_payments in
  ParentPage (mkParentView child pending approved_recent txs current_balance
                total_payments (sort_by by_name (chore_types st)))
  end
  end.

(* ------------------------------------------------------------------ *)
(** ** The ledger quantities as the spec defines them *)

Definition approved_earnings_spec (st : Store) (u : Z) : option Z :=
  py_sum_opt 0 (map (sub_value st)
    (filter (fun s => (sub_user_id s =? u) && status_eqb (status s) Approved)
            (submissions st))).

Fixpoint sum_amounts (k : TxType) (u : Z) (l : list Transaction) : Z :=
  match l with
  | [] => 0
  | t :: r =>
      (if (tx_user_id t =? u) && tx_type_eqb (tx_type t) k then amount t else 0)
      + sum_amounts k u r
  end.

Definition total_fines_spec (st : Store) (u : Z) : Z :=
  sum_amounts TxFine u (transactions st).

Definition total_payments_spec (st : Store) (u : Z) : Z :=
  sum_amounts TxPayment u (transactions st).

(** Every submission of [u] references an existing chore type (chore types
    are never deleted, so this holds of every store the app produces). *)
Definition refs_ok (st : Store) (u : Z) : Prop :=
  forall s, In s (submissions st) -> sub_user_id s = u ->
  exists c, find_chore_type (chore_types st) (sub_chore_type_id s) = Some c.

(* ------------------------------------------------------------------ *)
(** ** [submit_chore] *)

(** A raw [chore_<id>_count] form value: empty, the checkbox value ["on"],
    a string [int()] accepts, or one it rejects with [ValueError]. *)
Inductive CountField := FEmpty | FOn | FInt (z : Z) | FBad.

Record SubmitForm := mkSubmitForm {
  count_field : Z -> option CountField;  (** [request.form.get(f"chore_{id}_count")] *)
  notes_field : Z -> option string       (** [request.form.get(f"chore_{id}_notes")] *)
}.

(** [if not count_value: continue], then ["on"] or [int(count_value)]. *)
Definition parse_count (v : option CountField) : option Z :=
  match v with
  | None | Some FEmpty | Some FBad => None
  | Some FOn => Some 1
  | Some (FInt z) => Some z
  end.

(** Text is held as its UTF-8 bytes (Werkzeug decodes the form as UTF-8).
    The characters [str.isspace] accepts, as UTF-8 byte sequences: the
    ASCII controls 9-13 and 28-31, the space, U+0085, U+00A0, U+1680,
    U+2000-U+200A, U+2028, U+2029, U+202F, U+205F and U+3000. *)
Definition py_space_utf8 : list (list Z) :=
  [[9]; [10]; [11]; [12]; [13]; [28]; [29]; [30]; [31]; [32];
   [194; 133]; [194; 160]; [225; 154; 128];
   [226; 128; 128]; [226; 128; 129]; [226; 128; 130]; [226; 128; 131];
   [226; 128; 132]; [226; 128; 133]; [226; 128; 134]; [226; 128; 135];
   [226; 128; 136]; [226; 128; 137]; [226; 128; 138];
   [226; 128; 168]; [226; 128; 169]; [226; 128; 175]; [226; 129; 159];
   [227; 128; 128]].

Definition byte_code (a : Ascii.ascii) : Z := Z.of_nat (Ascii.nat_of_ascii a).

(** [l] with the byte sequence [p] removed from its front, if it starts so. *)
Fixpoint strip_prefix (p : list Z) (l : list Ascii.ascii) : option (list Ascii.ascii) :=
  match p, l with
  | [], _ => Some l
  | x :: p', a :: l' => if byte_code a =? x then strip_prefix p' l' else None
  | _ :: _, [] => None
  end.

(** [l] without one leading whitespace character from [seqs], if it has one. *)
Fixpoint drop_space (seqs : list (list Z)) (l : list Ascii.ascii) : option (list Ascii.ascii) :=
  match seqs with
  | [] => None
  | p :: r => match strip_prefix p l with
              | Some l' => Some l'
              | None => drop_space r l
              end
  end.

(** Drops leading whitespace characters; every drop removes at least one
    byte, so [length l] steps are enough. *)
Fixpoint lstrip_fuel (seqs : list (list Z)) (fuel : nat) (l : list Ascii.ascii)
  : list Ascii.ascii :=
  match fuel with
  | O => l
  | S k => match drop_space seqs l with
           | Some l' => lstrip_fuel seqs k l'
           | None => l
           end
  end.

Definition lstrip (l : list Ascii.ascii) : list Ascii.ascii :=
  lstrip_fuel py_space_utf8 (List.length l) l.

(** Trailing whitespace: the same on the reversed bytes, with the
    sequences reversed (in valid UTF-8 the last character is determined by
    its last bytes). *)
Definition rstrip (l : list Ascii.ascii) : list Ascii.ascii :=
  rev (lstrip_fuel (map (@rev Z) py_space_utf8) (List.length l) (rev l)).

(** [str.strip()]. *)
Definition py_strip (s : string) : string :=
  string_of_list_ascii (rstrip (lstrip (list_ascii_of_string s))).

(** [notes = request.form.get(notes_field, "").strip()], stored as
    [notes if notes else None]. *)
Definition stored_notes (form : SubmitForm) (id : Z) : option string :=
  let n := py_strip (match notes_field form id with Some s => s | None => EmptyString end) in
  if String.eqb n EmptyString then None else Some n.

(** The rowid SQLite gives the next inserted row. *)
Definition next_sub_id (subs : list ChoreSubmission) : Z :=
  1 + fold_right Z.max 0 (map sub_id subs).

(** [for i in range(count): db.session.add(ChoreSubmission(...))]. *)
Fixpoint add_submissions (n : nat) (u cid : Z) (note : option string)
  (now : Timestamp) (subs : list ChoreSubmission) : list ChoreSubmission :=
  match n with
  | O => subs
  | S k => add_submissions k u cid note now
             (subs ++ [mkSub (next_sub_id subs) u cid Pending now None note])
  end.

Inductive SubmitError :=
  | ErrOnlyMore (name : string) (remaining count : Z)
      (** f"{name}: Only {remaining} more allowed today (tried to submit {count})" *)
  | ErrLimitReached (name : string)
      (** f"{name}: Daily limit already reached" *).

Definition set_submissions (st : Store) (subs : list ChoreSubmission) : Store :=
  mkStore (users st) (chore_types st) subs (transactions st).

Definition SubmitAcc : Type := (Store * list string * list SubmitError)%type.

(** One iteration of the loop over the active chore types. *)
Definition submit_step (u today : Z) (now : Timestamp) (form : SubmitForm)
  (acc : SubmitAcc) (c : ChoreType) : option SubmitAcc :=
  let '(st, submitted, errors) := acc in
  match parse_count (count_field form (ct_id c)) with
  | None => Some acc
  | Some count =>
    if count <=? 0 then Some acc else
    let note := stored_notes form (ct_id c) in
    match get_limit_for_day c (db_weekday today) with
    | None => None
    | Some lim =>
      let today_subs := today_submissions st u (ct_id c) today in
      let accept :=
        Some (set_submissions st
                (add_submissions (Z.to_nat count) u (ct_id c) note now (submissions st)),
              submitted ++ repeat (ct_name c) (Z.to_nat count), errors) in
      if 0 <? lim then
        let rem := lim - today_subs in
        if rem <? count then
          if 0 <? rem then Some (st, submitted, errors ++ [ErrOnlyMore (ct_name c) rem count])
          else Some (st, submitted, errors ++ [ErrLimitReached (ct_name c)])
        else accept
      else accept
    end
  end.

Fixpoint submit_loop (u today : Z) (now : Timestamp) (form : SubmitForm)
  (cts : list ChoreType) (acc : SubmitAcc) : option SubmitAcc :=
  match cts with
  | [] => Some acc
  | c :: r =>
      match submit_step u today now form acc c with
      | None => None
      | Some acc' => submit_loop u today now form r acc'
      end
  end.

Inductive Flash :=
  | FlashSubmittedOne (name : string)
  | FlashSubmittedMany (n : Z)
  | FlashError (e : SubmitError)
  | FlashSelectOne.

(** [submit_chore] for child [u] on day [today] at instant [now]: the
    store after the request, the submitted names, the errors and the flashed
    messages. The commit only happens when something was added, and nothing
    is added otherwise, so the resulting store is the same either way. *)
Definition submit_chore (st : Store) (u today : Z) (now : Timestamp) (form : SubmitForm)
  : option (SubmitAcc * list Flash) :=
  match submit_loop u today now form (filter active (chore_types st)) (st, [], []) with
  | None => None
  | Some (st', submitted, errors) =>
      let ok := match submitted with
                | [] => []
                | [n] => [FlashSubmittedOne n]
                | _ => [FlashSubmittedMany (Z.of_nat (List.length submitted))]
                end in
      let fl := ok ++ map FlashError errors ++
                (match submitted, errors with [], [] => [FlashSelectOne] | _, _ => [] end) in
      Some ((st', submitted, errors), fl)
  end.

(* ------------------------------------------------------------------ *)
(** ** Parent actions: approval, chore type edits, fines and payments *)

Inductive HttpError := NotFound404.

(** [ChoreSubmission.query.get_or_404(id)]. *)
Definition find_submission (subs : list ChoreSubmission) (sid : Z) : option ChoreSubmission :=
  find (fun s => sub_id s =? sid) subs.

Definition next_tx_id (txs : list Transaction) : Z :=
  1 + fold_right Z.max 0 (map tx_id txs).

(** [submission.status = "approved"; submission.date_approved = utcnow()]
    on the row with that primary key. *)
Definition mark_approved (sid : Z) (now : Timestamp) (s : ChoreSubmission) : ChoreSubmission :=
  if sub_id s =? sid
  then mkSub (sub_id s) (sub_user_id s) (sub_chore_type_id s) Approved
             (date_submitted s) (Some now) (notes s)
  else s.

(** [approve_submission]: [inr] for the 404 response; [None] inside [inl]
    when [submission.chore_type] is missing and the handler raises. The
    status change and the new transaction reach the database in one
    [commit]. *)
Definition approve_submission (st : Store) (sid : Z) (now : Timestamp)
  : (option Store + HttpError) :=
  match find_submission (submissions st) sid with
  | None => inr NotFound404
  | Some s =>
    match find_chore_type (chore_types st) (sub_chore_type_id s) with
    | None => inl None
    | Some c =>
      let tx := mkTx (next_tx_id (transactions st)) (sub_user_id s) TxChore
                  ("Approved: " ++ ct_name c) (ct_value c) now in
      inl (Some (mkStore (users st) (chore_types st)
                   (map (mark_approved sid now) (submissions st))
                   (transactions st ++ [tx])))
    end
  end.

(** A numeric form field: [""] (falsy), a string [float()]/[int()]
    accepts, or one it rejects. *)
Inductive FormNum := NumEmpty | NumOk (z : Z) | NumBad.

Inductive ParentFlash :=
  | FlashNoChild | FlashFineAdded | FlashInvalidAmount | FlashFillAll
  | FlashPaymentRecorded | FlashEnterAmount
  | FlashChoreUpdated (name : string) | FlashInvalidValues.

Definition str_truthy (s : option string) : bool :=
  match s with None => false | Some x => negb (String.eqb x EmptyString) end.

Definition num_truthy (n : option FormNum) : bool :=
  match n with None | Some NumEmpty => false | Some _ => true end.

Definition add_tx (st : Store) (u : Z) (k : TxType) (d : string) (a : Z) (now : Timestamp)
  : Store :=
  mkStore (users st) (chore_types st) (submissions st)
    (transactions st ++ [mkTx (next_tx_id (transactions st)) u k d a now]).

(** [add_fine] with the posted [description] and [amount]. *)
Definition add_fine (st : Store) (description : option string) (amt : option FormNum)
  (now : Timestamp) : Store * ParentFlash :=
  match first_child st with
  | None => (st, FlashNoChild)
  | Some child =>
    if str_truthy description && num_truthy amt then
      match amt with
      | Some (NumOk a) =>
          (add_tx st (user_id child) TxFine
             (match description with Some d => d | None => EmptyString end) a now,
           FlashFineAdded)
      | _ => (st, FlashInvalidAmount)
      end
    else (st, FlashFillAll)
  end.

(** [add_payment] with the posted [amount]. *)
Definition add_payment (st : Store) (amt : option FormNum) (now : Timestamp)
  : Store * ParentFlash :=
  match first_child st with
  | None => (st, FlashNoChild)
  | Some child =>
    if num_truthy amt then
      match amt with
      | Some (NumOk a) =>
          (add_tx st (user_id child) TxPayment "Payment made" a now, FlashPaymentRecorded)
      | _ => (st, FlashInvalidAmount)
      end
    else (st, FlashEnterAmount)
  end.

(** The posted fields of [edit_chore_type]; [None] is an absent field. *)
Record EditForm := mkEditForm {
  ef_name : option string;
  ef_description : option string;
  ef_value : option FormNum;
  ef_sunday : option FormNum;
  ef_monday : option FormNum;
  ef_tuesday : option FormNum;
  ef_wednesday : option FormNum;
  ef_thursday : option FormNum;
  ef_friday : option FormNum;
  ef_saturday : option FormNum
}.

(** [float(request.form.get(f, old))] / [int(request.form.get(f, old))]:
    [None] for [ValueError] ([float("")] and [int("")] raise too). *)
Definition parse_field (f : option FormNum) (old : Z) : option Z :=
  match f with
  | None => Some old
  | Some (NumOk z) => Some z
  | Some NumEmpty | Some NumBad => None
  end.

Definition edit_record (c : ChoreType) (f : EditForm) : option ChoreType :=
  let name := match ef_name f with Some n => n | None => ct_name c end in
  let descr := match ef_description f with Some d => d | None => ct_description c end in
  match parse_field (ef_value f) (ct_value c), parse_field (ef_sunday f) (sunday_limit c),
        parse_field (ef_monday f) (monday_limit c), parse_field (ef_tuesday f) (tuesday_limit c),
        parse_field (ef_wednesday f) (wednesday_limit c),
        parse_field (ef_thursday f) (thursday_limit c),
        parse_field (ef_friday f) (friday_limit c),
        parse_field (ef_saturday f) (saturday_limit c) with
  | Some v, Some su, Some mo, Some tu, Some we, Some th, Some fr, Some sa =>
      Some (mkChoreType (ct_id c) name descr v su mo tu we th fr sa (active c))
  | _, _, _, _, _, _, _, _ => None
  end.

(** [edit_chore_type]: on [ValueError] nothing is committed. *)
Definition edit_chore_type (st : Store) (id : Z) (f : EditForm)
  : (Store * ParentFlash) + HttpError :=
  match find_chore_type (chore_types st) id with
  | None => inr NotFound404
  | Some c =>
    match edit_record c f with
    | None => inl (st, FlashInvalidValues)
    | Some c' =>
        inl (mkStore (users st)
               (map (fun x => if ct_id x =? id then c' else x) (chore_types st))
               (submissions st) (transactions st),
             FlashChoreUpdated (ct_name c'))
    end
  end.

(** An edit that only posts a new value. *)
Definition value_only (v : Z) : EditForm :=
  mkEditForm None None (Some (NumOk v)) None None None None None None None.

(** The balance the parent dashboard shows, when it renders. *)
Definition parent_balance (st : Store) : option Z :=
  match parent_dashboard st with
  | ParentPage v => Some (pv_current_balance v)
  | ParentNoChild | ParentCrash => None
  end.

Definition not_chore_tx (t : Transaction) : bool := negb (tx_type_eqb (tx_type t) TxChore).

(* ------------------------------------------------------------------ *)
(** ** Money as Python floats

    The [value] and [amount] columns are SQL Floats: Python adds them as
    IEEE doubles. An amount of [z] cents is typed as a decimal with two
    places, and [float()] gives the double nearest to [z / 100], which is
    the correctly rounded quotient of the two exact integers. [sum] is
    CPython's up to 3.11 (the interpreter here): a left fold of [+]
    from the int 0 ([0 + x] is [x]); 3.12 adds floats with compensation. *)

Definition float_of_Z (z : Z) : PrimFloat.float :=
  if z <? 0 then PrimFloat.opp (PrimFloat.of_uint63 (Uint63.of_Z (- z)))
  else PrimFloat.of_uint63 (Uint63.of_Z z).

Definition money_float (z : Z) : PrimFloat.float :=
  PrimFloat.div (float_of_Z z) (float_of_Z 100).

Fixpoint py_fsum_opt (acc : PrimFloat.float) (l : list (option PrimFloat.float))
  : option PrimFloat.float :=
  match l with
  | [] => Some acc
  | None :: _ => None
  | Some v :: r => py_fsum_opt (PrimFloat.add acc v) r
  end.

Definition py_fsum (l : list PrimFloat.float) : PrimFloat.float :=
  fold_left PrimFloat.add l PrimFloat.zero.

Definition sub_value_float (st : Store) (s : ChoreSubmission) : option PrimFloat.float :=
  option_map (fun c => money_float (ct_value c))
    (find_chore_type (chore_types st) (sub_chore_type_id s)).

Definition amount_float (t : Transaction) : PrimFloat.float := money_float (amount t).

(** The [balance] [child_dashboard] renders, with float money. *)
Definition child_balance_float (st : Store) (u today : Z) : option PrimFloat.float :=
  let cts := sort_by by_name (filter active (chore_types st)) in
  let subs := sort_by (ts_desc date_submitted)
                (filter (fun s => sub_user_id s =? u) (submissions st)) in
  match py_fsum_opt PrimFloat.zero (map (sub_value_float st)
          (filter (fun s => status_eqb (status s) Pending) subs)) with
  | None => None
  | Some _ =>
  match py_fsum_opt PrimFloat.zero (map (sub_value_float st)
          (filter (fun s => status_eqb (status s) Approved) subs)) with
  | None => None
  | Some approved_earnings =>
  let total_fines := py_fsum (map amount_float (txs_of st u TxFine)) in
  let total_payments := py_fsum (map amount_float (txs_of st u TxPayment)) in
  let balance := PrimFloat.sub (PrimFloat.sub approved_earnings total_fines) total_payments in
  match availability_loop st u today cts [] with
  | None => None
  | Some _ => Some balance
  end end end.

(** The [current_balance] [parent_dashboard] renders, with float money. *)
Definition parent_balance_float (st : Store) : option PrimFloat.float :=
  match first_child st with
  | None => None
  | Some child =>
  let cid := user_id child in
  let all_approved :=
        filter (fun s => (sub_user_id s =? cid) && status_eqb (status s) Approved)
               (submissions st) in
  match py_fsum_opt PrimFloat.zero (map (sub_value_float st) all_approved) with
  | None => None
  | Some approved_earnings =>
  let total_fines := py_fsum (map amount_float (txs_of st cid TxFine)) in
  let total_payments := py_fsum (map amount_float (txs_of st cid TxPayment)) in
  Some (PrimFloat.sub (PrimFloat.sub approved_earnings total_fines) total_payments)
  end
  end.

(* ------------------------------------------------------------------ *)
(** ** A sample database (the test fixture plus a little history) *)

(** 2024-05-15, a Wednesday, as a [date.toordinal] day number. *)
Definition wednesday : Z := 739021.

Definition clean_room : ChoreType :=
  mkChoreType 1 "Clean Room" "Clean your room" 500 1 1 1 1 1 1 1 true.
Definition dishes : ChoreType :=
  mkChoreType 2 "Dishes" "Wash the dishes" 200 0 0 0 0 0 0 0 true.
Definition old_chore : ChoreType :=
  mkChoreType 3 "Old Chore" "No longer offered" 100 0 0 0 0 0 0 0 false.

Definition demo_store : Store :=
  mkStore
    [mkUser 1 "parent" Parent; mkUser 2 "child" Child]
    [clean_room; dishes; old_chore]
    [mkSub 1 2 1 Approved (mkTs wednesday 100) (Some (mkTs wednesday 200)) None;
     mkSub 2 2 2 Pending (mkTs wednesday 300) None (Some "Done!"%string)]
    [mkTx 1 2 TxChore "Approved: Clean Room" 500 (mkTs wednesday 200);
     mkTx 2 2 TxFine "Bad behavior" 200 (mkTs wednesday 400)].

(** [demo_store] without its chore transaction. *)
Definition demo_store_no_chore : Store :=
  mkStore (users demo_store) (chore_types demo_store) (submissions demo_store)
    [mkTx 2 2 TxFine "Bad behavior" 200 (mkTs wednesday 400)].

(** Three approved chores worth 0.10, 0.20 and 0.30, done in that order. *)
Definition cents_store : Store :=
  mkStore
    [mkUser 1 "parent" Parent; mkUser 2 "child" Child]
    [mkChoreType 1 "Feed Cat" "Feed the cat" 10 0 0 0 0 0 0 0 true;
     mkChoreType 2 "Water Plants" "Water the plants" 20 0 0 0 0 0 0 0 true;
     mkChoreType 3 "Set Table" "Set the table" 30 0 0 0 0 0 0 0 true]
    [mkSub 1 2 1 Approved (mkTs wednesday 100) (Some (mkTs wednesday 1000)) None;
     mkSub 2 2 2 Approved (mkTs wednesday 200) (Some (mkTs wednesday 1000)) None;
     mkSub 3 2 3 Approved (mkTs wednesday 300) (Some (mkTs wednesday 1000)) None]
    [].

(** The instant of the sample requests: Wednesday, 12:00 UTC. *)
Definition demo_now : Timestamp := mkTs wednesday 43200.

(** A batch form asking for "Clean Room" once, "Dishes" three times (with a
    note) and ticking the inactive "Old Chore". *)
Definition demo_form : SubmitForm :=
  mkSubmitForm
    (fun id => if id =? 1 then Some (FInt 1) else if id =? 2 then Some (FInt 3)
               else if id =? 3 then Some FOn else None)
    (fun id => if id =? 2 then Some "  after dinner "%string else None).

(** A form asking for "Clean Room" twice. *)
Definition clean_two_form : SubmitForm :=
  mkSubmitForm (fun id => if id =? 1 then Some (FInt 2) else None) (fun _ => None).

(* ------------------------------------------------------------------ *)
(** ** [ChoreType.get_day_abbreviations] *)

Definition day_letters : list string := ["S"; "M"; "T"; "W"; "Th"; "F"; "S"]%string.

(** ["".join(day for day, limit in zip(days, limits) if limit > 0)]. *)
Definition get_day_abbreviations (c : ChoreType) : string :=
  String.concat EmptyString
    (map fst (filter (fun p => 0 <? snd p) (combine day_letters (limits c)))).

(** The letter shown for day index [d] (Sunday = 0). *)
Definition day_letter (d : nat) : string := nth d day_letters EmptyString.

(* ------------------------------------------------------------------ *)
(** ** [add_chore_type] and [toggle_chore_type] *)

(** The posted fields of [add_chore_type]; [None] is an absent field. *)
Record AddForm := mkAddForm {
  af_name : option string;
  af_description : option string;
  af_value : option FormNum;
  af_sunday : option FormNum;
  af_monday : option FormNum;
  af_tuesday : option FormNum;
  af_wednesday : option FormNum;
  af_thursday : option FormNum;
  af_friday : option FormNum;
  af_saturday : option FormNum
}.

(** [int(request.form.get(day, "0"))]: an absent field reads ["0"]. *)
Definition parse_limit (f : option FormNum) : option Z := parse_field f 0.

Inductive ChoreFlash :=
  | FlashFillRequired                 (** "Please fill all required fields" *)
  | FlashInvalidValueAmount           (** "Invalid value amount" *)
  | FlashCreated (name : string)      (** f'Chore type "{name}" created successfully!' *)
  | FlashToggled (name : string) (now_active : bool)
      (** f'Chore type "{name}" activated' / [deactivated] *).

(** The rowid SQLite gives the next inserted chore type. *)
Definition next_ct_id (cts : list ChoreType) : Z :=
  1 + fold_right Z.max 0 (map ct_id cts).

(** [add_chore_type]: the seven [int()] conversions run before the
    required-field check and outside the [try], so a [ValueError] there
    makes the handler raise ([None]); [float(value)] is inside the [try]. *)
Definition add_chore_type (st : Store) (f : AddForm) : option (Store * ChoreFlash) :=
  match parse_limit (af_sunday f), parse_limit (af_monday f),
        parse_limit (af_tuesday f), parse_limit (af_wednesday f),
        parse_limit (af_thursday f), parse_limit (af_friday f),
        parse_limit (af_saturday f) with
  | Some su, Some mo, Some tu, Some we, Some th, Some fr, Some sa =>
    if str_truthy (af_name f) && str_truthy (af_description f) && num_truthy (af_value f)
    then
      match af_value f with
      | Some (NumOk v) =>
          let name := match af_name f with Some n => n | None => EmptyString end in
          let descr := match af_description f with Some d => d | None => EmptyString end in
          Some (mkStore (users st)
                  (chore_types st ++
                     [mkChoreType (next_ct_id (chore_types st)) name descr v
                        su mo tu we th fr sa true])
                  (submissions st) (transactions st),
                FlashCreated name)
      | _ => Some (st, FlashInvalidValueAmount)
      end
    else Some (st, FlashFillRequired)
  | _, _, _, _, _, _, _ => None
  end.

(** The seven day fields of the form, Sunday first. *)
Definition limit_fields (f : AddForm) : list (option FormNum) :=
  [af_sunday f; af_monday f; af_tuesday f; af_wednesday f; af_thursday f;
   af_friday f; af_saturday f].

(** [chore_type.active = not chore_type.active]. *)
Definition toggle_record (c : ChoreType) : ChoreType :=
  mkChoreType (ct_id c) (ct_name c) (ct_description c) (ct_value c)
    (sunday_limit c) (monday_limit c) (tuesday_limit c) (wednesday_limit c)
    (thursday_limit c) (friday_limit c) (saturday_limit c) (negb (active c)).

(** [toggle_chore_type]: [get_or_404], flip, commit, flash the new state. *)
Definition toggle_chore_type (st : Store) (id : Z) : (Store * ChoreFlash) + HttpError :=
  match find_chore_type (chore_types st) id with
  | None => inr NotFound404
  | Some c =>
      inl (mkStore (users st)
             (map (fun x => if ct_id x =? id then toggle_record x else x) (chore_types st))
             (submissions st) (transactions st),
           FlashToggled (ct_name c) (negb (active c)))
  end.

(* ------------------------------------------------------------------ *)
(** ** Reading the availability dict *)

(** [chore_availability[chore.id]] in the template ([None]: [KeyError]). *)
Fixpoint dict_get {V} (k : Z) (d : list (Z * V)) : option V :=
  match d with
  | [] => None
  | (k', v) :: r => if k' =? k then Some v else dict_get k r
  end.

(* ------------------------------------------------------------------ *)
(** ** [setup.init_database] and the requests that write the database *)

(** The database [setup.init_database] leaves: the two accounts and the five
    sample chores, with [active] at its default [True]; password hashes
    are not modelled. The ids are the rowids of the inserts, table by table. *)
Definition init_database : Store :=
  mkStore
    [mkUser 1 "parent" Parent; mkUser 2 "child" Child]
    [mkChoreType 1 "Clean Your Room" "Vacuum, make bed, organize desk, and put away clothes"
       500 1 1 1 1 1 1 1 true;
     mkChoreType 2 "Take Out Trash" "Empty all trash cans and take bins to curb"
       200 1 0 0 1 0 0 0 true;
     mkChoreType 3 "Load Dishwasher" "Load dirty dishes and run dishwasher"
       300 2 2 2 2 2 2 2 true;
     mkChoreType 4 "Wash Car" "Wash and vacuum the family car"
       1000 1 0 0 0 0 0 1 true;
     mkChoreType 5 "Yard Work" "Mow lawn, rake leaves, or pull weeds"
       1500 0 0 0 0 0 0 1 true]
    [] [].

(** The routes that write the database. [index], [login], [logout] and the
    dashboard and management pages only read it. [u] is the logged-in
    child of [submit_chore]. *)
Inductive Request :=
  | ReqSubmit (u today : Z) (now : Timestamp) (form : SubmitForm)
  | ReqApprove (sid : Z) (now : Timestamp)
  | ReqFine (description : option string) (amt : option FormNum) (now : Timestamp)
  | ReqPayment (amt : option FormNum) (now : Timestamp)
  | ReqAddChoreType (f : AddForm)
  | ReqEditChoreType (id : Z) (f : EditForm)
  | ReqToggleChoreType (id : Z).

(** The database after one request: a handler that raises or answers 404
    commits nothing. *)
Definition handle (st : Store) (r : Request) : Store :=
  match r with
  | ReqSubmit u today now form =>
      match submit_chore st u today now form with
      | Some ((st', _, _), _) => st'
      | None => st
      end
  | ReqApprove sid now =>
      match approve_submission st sid now with
      | inl (Some st') => st'
      | _ => st
      end
  | ReqFine d amt now => fst (add_fine st d amt now)
  | ReqPayment amt now => fst (add_payment st amt now)
  | ReqAddChoreType f =>
      match add_chore_type st f with
      | Some (st', _) => st'
      | None => st
      end
  | ReqEditChoreType id f =>
      match edit_chore_type st id f with
      | inl (st', _) => st'
      | inr _ => st
      end
  | ReqToggleChoreType id =>
      match toggle_chore_type st id with
      | inl (st', _) => st'
      | inr _ => st
      end
  end.

Fixpoint run (st : Store) (rs : list Request) : Store :=
  match rs with
  | [] => st
  | r :: rest => run (handle st r) rest
  end.

(** Primary keys are unique in every table. *)
Definition keys_unique (st : Store) : Prop :=
  NoDup (map user_id (users st)) /\ NoDup (map ct_id (chore_types st)) /\
  NoDup (map sub_id (submissions st)) /\ NoDup (map tx_id (transactions st)).

(** Every submission's [chore_type] relationship resolves. *)
Definition refs_all (st : Store) : Prop :=
  forall s, In s (submissions st) ->
  exists c, find_chore_type (chore_types st) (sub_chore_type_id s) = Some c.

(* ================================================================== *)
(** ** Theorems *)

Lemma limits_slot (c : ChoreType) (d : Z) :
  0 <= d <= 6 -> get_limit_for_day c d = weekday_slot_spec c d.
Proof.
  intros Hd.
  assert (d = 0 \/ d = 1 \/ d = 2 \/ d = 3 \/ d = 4 \/ d = 5 \/ d = 6)
    as Hcases by lia.
  destruct Hcases as [-> | [-> | [-> | [-> | [-> | [-> | -> ]]]]]]; reflexivity.
Qed.

(* ------------------------------------------------------------------ *)
(** ** General lemmas: sums, sorting, filtering *)

Lemma py_sum_opt_acc (acc : Z) (l : list (option Z)) :
  py_sum_opt acc l = option_map (Z.add acc) (py_sum_opt 0 l).
Proof.
  revert acc; induction l as [|[v|] r IH]; intros acc; simpl; auto.
  - f_equal; lia.
  - rewrite (IH (acc + v)), (IH v). destruct (py_sum_opt 0 r); simpl; auto.
    f_equal; lia.
Qed.

Lemma py_sum_opt_cons (x : option Z) (l : list (option Z)) :
  py_sum_opt 0 (x :: l) =
  match x with None => None | Some v => option_map (Z.add v) (py_sum_opt 0 l) end.
Proof. destruct x; simpl; auto. apply py_sum_opt_acc. Qed.

Lemma py_sum_opt_perm (l l' : list (option Z)) :
  Permutation l l' -> py_sum_opt 0 l = py_sum_opt 0 l'.
Proof.
  induction 1 as [| x l l' _ IH | x y l | l l' l'' _ IH1 _ IH2].
  - reflexivity.
  - rewrite !py_sum_opt_cons, IH. reflexivity.
  - rewrite !py_sum_opt_cons.
    destruct x as [a|], y as [b|]; simpl; auto.
    destruct (py_sum_opt 0 l); simpl; auto. f_equal; lia.
  - congruence.
Qed.

Lemma py_sum_opt_some (f : ChoreSubmission -> option Z) (l : list ChoreSubmission) (acc : Z) :
  (forall x, In x l -> exists v, f x = Some v) ->
  exists r, py_sum_opt acc (map f l) = Some r.
Proof.
  revert acc; induction l as [|x l IH]; intros acc H; simpl; eauto.
  destruct (H x (or_introl eq_refl)) as [v Hv]. rewrite Hv.
  apply IH. intros y Hy. apply H. now right.
Qed.

Lemma fold_left_add_acc (l : list Z) (acc : Z) :
  fold_left Z.add l acc = acc + fold_left Z.add l 0.
Proof.
  revert acc; induction l as [|x l IH]; intros acc; simpl; [lia|].
  rewrite (IH (acc + x)), (IH x). lia.
Qed.

Lemma py_sum_txs (st : Store) (u : Z) (k : TxType) :
  py_sum (map amount (txs_of st u k)) = sum_amounts k u (transactions st).
Proof.
  unfold py_sum, txs_of. induction (transactions st) as [|t l IH]; simpl; auto.
  destruct ((tx_user_id t =? u) && tx_type_eqb (tx_type t) k); simpl.
  - rewrite fold_left_add_acc, IH. lia.
  - rewrite IH. lia.
Qed.

Lemma insert_by_perm {A} (b : A -> A -> bool) (x : A) (l : list A) :
  Permutation (insert_by b x l) (x :: l).
Proof.
  induction l as [|y r IH]; simpl; auto.
  destruct (b x y); auto.
  eapply perm_trans; [apply perm_skip, IH | apply perm_swap].
Qed.

Lemma sort_by_perm {A} (b : A -> A -> bool) (l : list A) :
  Permutation (sort_by b l) l.
Proof.
  induction l as [|x r IH]; simpl; auto.
  eapply perm_trans; [apply insert_by_perm | apply perm_skip, IH].
Qed.

Lemma filter_perm {A} (f : A -> bool) (l l' : list A) :
  Permutation l l' -> Permutation (filter f l) (filter f l').
Proof.
  induction 1; simpl; auto.
  - destruct (f x); auto.
  - destruct (f x), (f y); auto. apply perm_swap.
  - eapply perm_trans; eauto.
Qed.

Lemma filter_and {A} (f g : A -> bool) (l : list A) :
  filter f (filter g l) = filter (fun x => g x && f x) l.
Proof.
  induction l as [|x r IH]; simpl; auto.
  destruct (g x); simpl; rewrite IH; auto.
Qed.

(** The approved submissions the child dashboard sums are a reordering of
    the ones the spec sums. *)
Lemma child_subs_perm (st : Store) (u : Z) (p : Status) :
  Permutation
    (filter (fun s => status_eqb (status s) p)
       (sort_by (ts_desc date_submitted)
          (filter (fun s => sub_user_id s =? u) (submissions st))))
    (filter (fun s => (sub_user_id s =? u) && status_eqb (status s) p)
       (submissions st)).
Proof.
  rewrite <- (filter_and (fun s => status_eqb (status s) p)).
  apply filter_perm, sort_by_perm.
Qed.

Lemma db_weekday_mod (day : Z) : db_weekday day = day mod 7.
Proof.
  unfold db_weekday, py_weekday.
  rewrite Z.add_mod_idemp_l by lia.
  replace (day + 6 + 1) with (day + 1 * 7) by lia.
  apply Z.mod_add; lia.
Qed.

Lemma get_limit_in_range (c : ChoreType) (d : Z) :
  0 <= d <= 6 -> exists l, get_limit_for_day c d = Some l.
Proof.
  intros Hd. rewrite limits_slot by exact Hd.
  unfold weekday_slot_spec.
  assert (d = 0 \/ d = 1 \/ d = 2 \/ d = 3 \/ d = 4 \/ d = 5 \/ d = 6)
    as Hcases by lia.
  destruct Hcases as [-> | [-> | [-> | [-> | [-> | [-> | -> ]]]]]]; simpl; eauto.
Qed.

Lemma availability_for_some (st : Store) (u today : Z) (c : ChoreType) :
  exists a, availability_for st u today c = Some a.
Proof.
  unfold availability_for.
  destruct (get_limit_in_range c (db_weekday today)) as [l Hl].
  { rewrite db_weekday_mod. pose proof (Z.mod_pos_bound today 7). lia. }
  rewrite Hl. eauto.
Qed.

Lemma availability_loop_some (st : Store) (u today : Z) (cts : list ChoreType) d :
  exists r, availability_loop st u today cts d = Some r.
Proof.
  revert d; induction cts as [|c r IH]; intros d; simpl; eauto.
  destruct (availability_for_some st u today c) as [a Ha]. rewrite Ha. apply IH.
Qed.

(* ------------------------------------------------------------------ *)
(** ** C10 *)

(** C10: for every template and every day index 0 <= d <= 6,
    [get_limit_for_day] returns exactly the configured slot for that weekday,
    with Sunday = 0 ... Saturday = 6 (so day 0 reads [sunday_limit]). *)
Theorem get_limit_for_day_slot (c : ChoreType) (d : Z) :
  0 <= d <= 6 -> get_limit_for_day c d = weekday_slot_spec c d.
Proof. apply limits_slot. Qed.

Lemma get_limit_for_day_slot_witness :
  0 <= 3 <= 6 /\
  get_limit_for_day (mkChoreType 1 "Clean Room" "Clean your room" 500
                       0 1 2 3 4 5 6 true) 3
  = weekday_slot_spec (mkChoreType 1 "Clean Room" "Clean your room" 500
                       0 1 2 3 4 5 6 true) 3.
Proof.
  split; [lia | apply get_limit_for_day_slot; lia].
Defined.


(* ------------------------------------------------------------------ *)
(** ** Balance *)

Lemma child_dashboard_some (st : Store) (u today : Z) :
  refs_ok st u ->
  exists v, child_dashboard st u today = Some v.
Proof.
  intros Href. unfold child_dashboard.
  assert (Hall : forall p, exists r, py_sum_opt 0 (map (sub_value st)
      (filter (fun s => status_eqb (status s) p)
         (sort_by (ts_desc date_submitted)
            (filter (fun s => sub_user_id s =? u) (submissions st))))) = Some r).
  { intros p. apply py_sum_opt_some. intros x Hx.
    apply (Permutation_in _ (child_subs_perm st u p)) in Hx.
    apply filter_In in Hx as [Hin Hb]. apply andb_prop in Hb as [Hu _].
    apply Z.eqb_eq in Hu.
    destruct (Href x Hin Hu) as [c Hc]. unfold sub_value. rewrite Hc. now exists (ct_value c). }
  destruct (Hall Pending) as [pe Hpe]. rewrite Hpe.
  destruct (Hall Approved) as [ae Hae]. rewrite Hae.
  destruct (availability_loop_some st u today
              (sort_by by_name (filter active (chore_types st))) []) as [av Hav].
  rewrite Hav. eauto.
Qed.

Lemma child_dashboard_balance (st : Store) (u today : Z) (v : ChildView) :
  child_dashboard st u today = Some v ->
  exists a, approved_earnings_spec st u = Some a /\
    cv_approved_earnings v = a /\
    cv_total_fines v = total_fines_spec st u /\
    cv_balance v = a - total_fines_spec st u - total_payments_spec st u.
Proof.
  unfold child_dashboard. intros H.
  destruct (py_sum_opt 0 _) as [pe|] eqn:Hpe; [|discriminate].
  destruct (py_sum_opt 0 (map (sub_value st) (filter (fun s => status_eqb (status s) Approved) _)))
    as [ae|] eqn:Hae; [|discriminate].
  destruct (availability_loop _ _ _ _ _) as [av|]; [|discriminate].
  injection H as <-. exists ae. simpl.
  unfold approved_earnings_spec, total_fines_spec, total_payments_spec.
  rewrite <- Hae, !py_sum_txs.
  rewrite (py_sum_opt_perm _ _ (Permutation_map _ (child_subs_perm st u Approved))).
  repeat split; reflexivity.
Qed.

Lemma sum_amounts_none (k : TxType) (u : Z) (l : list Transaction) :
  (forall t, In t l -> tx_user_id t <> u) -> sum_amounts k u l = 0.
Proof.
  induction l as [|t r IH]; intros H; simpl; auto.
  rewrite IH by (intros; apply H; now right).
  destruct (Z.eqb_spec (tx_user_id t) u) as [E|]; simpl; [|lia].
  exfalso. exact (H t (or_introl eq_refl) E).
Qed.

Lemma approved_spec_none (st : Store) (u : Z) :
  (forall s, In s (submissions st) -> sub_user_id s <> u) ->
  approved_earnings_spec st u = Some 0.
Proof.
  unfold approved_earnings_spec. intros H.
  replace (filter _ (submissions st)) with (@nil ChoreSubmission); auto.
  induction (submissions st) as [|s r IH]; simpl; auto.
  destruct (Z.eqb_spec (sub_user_id s) u) as [E|]; simpl.
  - exfalso. exact (H s (or_introl eq_refl) E).
  - apply IH. intros; apply H; now right.
Qed.

(** C1: for every store and child account [u] (whose submissions reference
    existing chore types, which no operation ever breaks), the child
    dashboard renders and its balance equals approved_earnings - total_fines
    - total_payments, where approved_earnings sums the referenced template's
    value over [u]'s approved submissions and the totals sum [u]'s fine and
    payment amounts; with no submissions and no transactions of [u] the
    balance is 0. *)
Theorem balance_formula (st : Store) (u today : Z) :
  refs_ok st u ->
  exists v a,
    child_dashboard st u today = Some v /\
    approved_earnings_spec st u = Some a /\
    cv_approved_earnings v = a /\
    cv_balance v = a - total_fines_spec st u - total_payments_spec st u /\
    ((forall s, In s (submissions st) -> sub_user_id s <> u) ->
     (forall t, In t (transactions st) -> tx_user_id t <> u) ->
     cv_balance v = 0).
Proof.
  intros Href.
  destruct (child_dashboard_some st u today Href) as [v Hv].
  destruct (child_dashboard_balance st u today v Hv) as (a & Ha & Hae & _ & Hb).
  exists v, a. repeat split; auto.
  intros Hs Ht. rewrite Hb.
  rewrite approved_spec_none in Ha by exact Hs. injection Ha as <-.
  unfold total_fines_spec, total_payments_spec.
  rewrite !sum_amounts_none by exact Ht. reflexivity.
Qed.

Lemma demo_refs_ok : refs_ok demo_store 2.
Proof.
  intros s Hin _. simpl in Hin.
  destruct Hin as [<- | [<- | []]]; simpl; eauto.
Qed.

Lemma balance_formula_witness :
  refs_ok demo_store 2 /\
  exists v a,
    child_dashboard demo_store 2 wednesday = Some v /\
    approved_earnings_spec demo_store 2 = Some a /\
    cv_approved_earnings v = a /\
    cv_balance v = a - total_fines_spec demo_store 2 - total_payments_spec demo_store 2 /\
    ((forall s, In s (submissions demo_store) -> sub_user_id s <> 2) ->
     (forall t, In t (transactions demo_store) -> tx_user_id t <> 2) ->
     cv_balance v = 0).
Proof.
  split; [exact demo_refs_ok | apply balance_formula; exact demo_refs_ok].
Defined.

(* ------------------------------------------------------------------ *)
(** ** Availability *)

(** C2: for every template, account and date, with [limit] the template's
    slot for that date's weekday (Sunday = 0) and [count] the account's
    submissions of that template stamped on that date: if [limit > 0] the
    report has [remaining = max(0, limit - count)] and
    [can_submit = (count < limit)]; if [limit = 0], [can_submit] is true and
    [remaining] is [None] (unbounded). *)
Theorem availability_spec (st : Store) (u today : Z) (c : ChoreType) :
  exists a,
    availability_for st u today c = Some a /\
    Some (limit a) = weekday_slot_spec c (sunday_based_weekday today) /\
    today_count a =
      Z.of_nat (List.length
        (filter (fun s => (sub_user_id s =? u) && (sub_chore_type_id s =? ct_id c)
                          && (ts_day (date_submitted s) =? today))
                (submissions st))) /\
    (limit a > 0 ->
       remaining a = Some (Z.max 0 (limit a - today_count a)) /\
       can_submit a = (today_count a <? limit a)) /\
    (limit a = 0 -> can_submit a = true /\ remaining a = None).
Proof.
  unfold availability_for.
  assert (Hr : 0 <= db_weekday today <= 6).
  { rewrite db_weekday_mod. pose proof (Z.mod_pos_bound today 7). lia. }
  destruct (get_limit_in_range c (db_weekday today) Hr) as [l Hl].
  rewrite Hl. eexists. split; [reflexivity|]. simpl.
  split.
  { rewrite <- Hl, limits_slot by exact Hr. rewrite db_weekday_mod. reflexivity. }
  split; [reflexivity|].
  split.
  - intros Hpos. destruct (Z.eqb_spec l 0); [lia|]. simpl. auto.
  - intros ->. simpl. auto.
Qed.

(* ------------------------------------------------------------------ *)
(** ** Child and parent dashboards agree *)

Lemma py_fsum_opt_some_inv (acc r : PrimFloat.float) (l : list (option PrimFloat.float)) :
  py_fsum_opt acc l = Some r ->
  exists vs, l = map Some vs /\ r = fold_left PrimFloat.add vs acc.
Proof.
  revert acc; induction l as [|[x|] l IH]; intros acc H; simpl in H.
  - injection H as <-. exists []. auto.
  - destruct (IH _ H) as (vs & -> & ->). exists (x :: vs). auto.
  - discriminate.
Qed.

Lemma py_fsum_opt_map_some (acc : PrimFloat.float) (vs : list PrimFloat.float) :
  py_fsum_opt acc (map Some vs) = Some (fold_left PrimFloat.add vs acc).
Proof.
  revert acc; induction vs as [|x vs IH]; intros acc; simpl; auto.
Qed.

(** C9 (as the code computes it): both dashboards compute approved
    earnings minus the fines minus the payments of the child, over the same
    rows and with the same fine and payment sums, but the child dashboard
    adds the approved chore values newest [date_submitted] first while the
    parent dashboard adds them in table order: the two float sums add the
    same values ([vs] and [ws] are reorderings of one another) in different
    orders. Whenever the child dashboard renders, so does the parent's
    balance. *)
Theorem dashboards_balance_summation_order (st : Store) (c : User) (today : Z)
  (b : PrimFloat.float) :
  first_child st = Some c ->
  child_balance_float st (user_id c) today = Some b ->
  exists vs ws b',
    parent_balance_float st = Some b' /\
    map Some vs = map (sub_value_float st)
      (filter (fun s => status_eqb (status s) Approved)
         (sort_by (ts_desc date_submitted)
            (filter (fun s => sub_user_id s =? user_id c) (submissions st)))) /\
    map Some ws = map (sub_value_float st)
      (filter (fun s => (sub_user_id s =? user_id c) && status_eqb (status s) Approved)
         (submissions st)) /\
    Permutation vs ws /\
    b = PrimFloat.sub (PrimFloat.sub (py_fsum vs)
          (py_fsum (map amount_float (txs_of st (user_id c) TxFine))))
          (py_fsum (map amount_float (txs_of st (user_id c) TxPayment))) /\
    b' = PrimFloat.sub (PrimFloat.sub (py_fsum ws)
          (py_fsum (map amount_float (txs_of st (user_id c) TxFine))))
          (py_fsum (map amount_float (txs_of st (user_id c) TxPayment))).
Proof.
  intros Hc Hb. unfold child_balance_float in Hb. cbv zeta in Hb.
  destruct (py_fsum_opt PrimFloat.zero (map (sub_value_float st)
              (filter (fun s => status_eqb (status s) Pending) _))) as [pe|];
    [|discriminate].
  destruct (py_fsum_opt PrimFloat.zero (map (sub_value_float st)
              (filter (fun s => status_eqb (status s) Approved) _))) as [ae|] eqn:Hae;
    [|discriminate].
  destruct (availability_loop _ _ _ _ _) as [av|]; [|discriminate].
  injection Hb as <-.
  destruct (py_fsum_opt_some_inv _ _ _ Hae) as (vs & Hvs & ->).
  pose proof (Permutation_map (sub_value_float st) (child_subs_perm st (user_id c) Approved))
    as Hp.
  rewrite Hvs in Hp.
  destruct (Permutation_map_inv _ _ (Permutation_sym Hp)) as (ws & Hws & Hvw).
  exists vs, ws.
  unfold parent_balance_float. rewrite Hc. cbv zeta. rewrite Hws, py_fsum_opt_map_some.
  eexists. split; [reflexivity|].
  split; [symmetry; exact Hvs|]. split; [reflexivity|]. split; [exact Hvw|].
  split; reflexivity.
Qed.

Module FloatMoney.
Import Corelib.Floats.PrimFloat.

Lemma dashboards_balance_summation_order_witness :
  first_child cents_store = Some (mkUser 2 "child" Child) /\
  child_balance_float cents_store 2 wednesday = Some 0.6%float /\
  exists vs ws b',
    parent_balance_float cents_store = Some b' /\
    map Some vs = map (sub_value_float cents_store)
      (filter (fun s => status_eqb (status s) Approved)
         (sort_by (ts_desc date_submitted)
            (filter (fun s => sub_user_id s =? 2) (submissions cents_store)))) /\
    map Some ws = map (sub_value_float cents_store)
      (filter (fun s => (sub_user_id s =? 2) && status_eqb (status s) Approved)
         (submissions cents_store)) /\
    Permutation vs ws /\
    0.6%float = PrimFloat.sub (PrimFloat.sub (py_fsum vs)
          (py_fsum (map amount_float (txs_of cents_store 2 TxFine))))
          (py_fsum (map amount_float (txs_of cents_store 2 TxPayment))) /\
    b' = PrimFloat.sub (PrimFloat.sub (py_fsum ws)
          (py_fsum (map amount_float (txs_of cents_store 2 TxFine))))
          (py_fsum (map amount_float (txs_of cents_store 2 TxPayment))).
Proof.
  split; [reflexivity|]. split; [vm_compute; reflexivity|].
  exact (dashboards_balance_summation_order cents_store (mkUser 2 "child" Child) wednesday
           0.6%float eq_refl ltac:(vm_compute; reflexivity)).
Defined.

(** C9 as stated fails: with three approved chores worth 0.10%float, 0.20%float and
    0.30%float (Python's [float("0.1%float")], ...; no fines, no payments), the child
    dashboard adds 0.3%float + 0.2%float + 0.1%float and shows 0.6%float, while the parent
    dashboard adds 0.1%float + 0.2%float + 0.3%float and shows 0.6000000000000001%float. *)
Lemma dashboards_balance_float_differ :
  money_float 10 = 0.1%float /\ money_float 20 = 0.2%float /\ money_float 30 = 0.3%float /\
  first_child cents_store = Some (mkUser 2 "child" Child) /\
  child_dashboard cents_store 2 wednesday <> None /\
  child_balance_float cents_store 2 wednesday = Some 0.6%float /\
  parent_balance_float cents_store = Some 0.6000000000000001%float /\
  0.6%float <> 0.6000000000000001%float.
Proof.
  split; [vm_compute; reflexivity|]. split; [vm_compute; reflexivity|].
  split; [vm_compute; reflexivity|]. split; [reflexivity|].
  split; [vm_compute; discriminate|].
  split; [vm_compute; reflexivity|]. split; [vm_compute; reflexivity|].
  intros H.
  assert (E : PrimFloat.eqb 0.6%float 0.6000000000000001%float = false) by (vm_compute; reflexivity).
  rewrite H in E. vm_compute in E. discriminate.
Qed.

End FloatMoney.

(* ------------------------------------------------------------------ *)
(** ** Submission: shape of the loop *)

(** What every submission the handler creates carries. *)
Definition new_ok (u : Z) (form : SubmitForm) (a : ChoreSubmission) : Prop :=
  sub_user_id a = u /\ status a = Pending /\
  notes a = stored_notes form (sub_chore_type_id a).

Lemma add_submissions_shape (n : nat) (u cid : Z) (note : option string)
  (now : Timestamp) (subs : list ChoreSubmission) :
  exists added, add_submissions n u cid note now subs = subs ++ added /\
    List.length added = n /\
    Forall (fun a => sub_user_id a = u /\ sub_chore_type_id a = cid /\
                     status a = Pending /\ notes a = note) added.
Proof.
  revert subs; induction n as [|k IH]; intros subs; simpl.
  - exists []. rewrite app_nil_r. auto.
  - destruct (IH (subs ++ [mkSub (next_sub_id subs) u cid Pending now None note]))
      as (added & Heq & Hlen & Hall).
    exists (mkSub (next_sub_id subs) u cid Pending now None note :: added).
    rewrite Heq, <- app_assoc. simpl. repeat split; auto.
Qed.

Lemma submit_step_shape u today now form st nm er c st' nm' er' :
  submit_step u today now form (st, nm, er) c = Some (st', nm', er') ->
  users st' = users st /\ chore_types st' = chore_types st /\
  transactions st' = transactions st /\
  exists added es, submissions st' = submissions st ++ added /\ er' = er ++ es /\
    Forall (fun a => sub_chore_type_id a = ct_id c /\ new_ok u form a) added.
Proof.
  unfold submit_step.
  assert (Hnone : forall es, Some (st, nm, er ++ es) = Some (st', nm', er') ->
     users st' = users st /\ chore_types st' = chore_types st /\
     transactions st' = transactions st /\
     exists added es, submissions st' = submissions st ++ added /\ er' = er ++ es /\
       Forall (fun a => sub_chore_type_id a = ct_id c /\ new_ok u form a) added).
  { intros es H. injection H as <- _ <-. repeat split; auto.
    exists [], es. rewrite app_nil_r. auto. }
  assert (Hadd : forall k, Some (set_submissions st
        (add_submissions k u (ct_id c) (stored_notes form (ct_id c)) now (submissions st)),
        nm ++ repeat (ct_name c) k, er) = Some (st', nm', er') ->
     users st' = users st /\ chore_types st' = chore_types st /\
     transactions st' = transactions st /\
     exists added es, submissions st' = submissions st ++ added /\ er' = er ++ es /\
       Forall (fun a => sub_chore_type_id a = ct_id c /\ new_ok u form a) added).
  { intros k H. injection H as <- _ <-.
    destruct (add_submissions_shape k u (ct_id c) (stored_notes form (ct_id c)) now
                (submissions st)) as (added & Heq & _ & Hall).
    simpl. repeat split; auto. exists added, []. rewrite app_nil_r.
    split; [exact Heq | split; [reflexivity|]].
    eapply Forall_impl; [|exact Hall]. simpl.
    intros a (Hu & Hc & Hs & Hn). unfold new_ok. rewrite Hc. auto. }
  destruct (parse_count _) as [count|].
  2: { intros H. apply (Hnone []). rewrite app_nil_r. exact H. }
  destruct (count <=? 0).
  { intros H. apply (Hnone []). rewrite app_nil_r. exact H. }
  destruct (get_limit_for_day c (db_weekday today)) as [lim|]; [|discriminate].
  destruct (0 <? lim); [|apply Hadd].
  destruct (lim - today_submissions st u (ct_id c) today <? count); [|apply Hadd].
  destruct (0 <? _); apply Hnone.
Qed.

Lemma submit_loop_shape u today now form cts st nm er st' nm' er' :
  submit_loop u today now form cts (st, nm, er) = Some (st', nm', er') ->
  users st' = users st /\ chore_types st' = chore_types st /\
  transactions st' = transactions st /\
  exists added es, submissions st' = submissions st ++ added /\ er' = er ++ es /\
    Forall (fun a => In (sub_chore_type_id a) (map ct_id cts) /\ new_ok u form a) added.
Proof.
  revert st nm er. induction cts as [|c r IH]; intros st nm er H; cbn [submit_loop] in H.
  - injection H as <- _ <-. repeat split; auto. exists [], [].
    rewrite !app_nil_r. auto.
  - destruct (submit_step u today now form (st, nm, er) c) as [[[st1 nm1] er1]|] eqn:Hs;
      [|discriminate].
    destruct (submit_step_shape _ _ _ _ _ _ _ _ _ _ _ Hs)
      as (U1 & C1 & T1 & added1 & es1 & S1 & E1 & F1).
    destruct (IH _ _ _ H) as (U2 & C2 & T2 & added2 & es2 & S2 & E2 & F2).
    repeat split; try congruence.
    exists (added1 ++ added2), (es1 ++ es2).
    rewrite S2, S1, E2, E1, !app_assoc. split; [reflexivity|]. split; [reflexivity|].
    apply Forall_app. split.
    + eapply Forall_impl; [|exact F1]. simpl. intros a [-> Hn]. auto.
    + eapply Forall_impl; [|exact F2]. simpl. intros a [Hi Hn]. auto.
Qed.

Lemma submit_step_some u today now form acc c :
  exists r, submit_step u today now form acc c = Some r.
Proof.
  destruct acc as [[st nm] er]. unfold submit_step.
  destruct (parse_count _) as [count|]; eauto.
  destruct (count <=? 0); eauto.
  destruct (get_limit_in_range c (db_weekday today)) as [lim Hl].
  { rewrite db_weekday_mod. pose proof (Z.mod_pos_bound today 7). lia. }
  rewrite Hl.
  destruct (0 <? lim); eauto.
  destruct (_ <? count); eauto. destruct (0 <? _); eauto.
Qed.

Lemma submit_loop_some u today now form cts acc :
  exists r, submit_loop u today now form cts acc = Some r.
Proof.
  revert acc; induction cts as [|c r IH]; intros acc; simpl; eauto.
  destruct (submit_step_some u today now form acc c) as [a Ha]. rewrite Ha. apply IH.
Qed.

Lemma submit_loop_app u today now form l1 l2 acc :
  submit_loop u today now form (l1 ++ l2) acc =
  match submit_loop u today now form l1 acc with
  | None => None
  | Some a => submit_loop u today now form l2 a
  end.
Proof.
  revert acc; induction l1 as [|c r IH]; intros acc; simpl; auto.
  destruct (submit_step u today now form acc c); auto.
Qed.

Lemma find_chore_type_unique (cts : list ChoreType) (c : ChoreType) :
  NoDup (map ct_id cts) -> In c cts -> find_chore_type cts (ct_id c) = Some c.
Proof.
  induction cts as [|x r IH]; simpl; [intros _ []|].
  intros Hnd Hin. inversion Hnd as [|? ? Hnotin Hnd']; subst.
  unfold find_chore_type; simpl. destruct Hin as [<- | Hin].
  - rewrite Z.eqb_refl. reflexivity.
  - destruct (Z.eqb_spec (ct_id x) (ct_id c)) as [E|].
    + exfalso. apply Hnotin. rewrite E. now apply in_map.
    + apply IH; auto.
Qed.

Lemma today_submissions_other (st st' : Store) (added : list ChoreSubmission) (u id d : Z) :
  submissions st' = submissions st ++ added ->
  Forall (fun a => sub_chore_type_id a <> id) added ->
  today_submissions st' u id d = today_submissions st u id d.
Proof.
  intros Hs Hall. unfold today_submissions. rewrite Hs, filter_app.
  replace (filter _ added) with (@nil ChoreSubmission); [now rewrite app_nil_r|].
  clear Hs.
  induction Hall as [|a l Ha _ IH]; simpl; auto.
  destruct (Z.eqb_spec (sub_chore_type_id a) id); [contradiction|].
  rewrite andb_false_r. simpl. exact IH.
Qed.

Lemma filter_chore_none (id : Z) (l : list ChoreSubmission) :
  Forall (fun a => sub_chore_type_id a <> id) l ->
  filter (fun a => sub_chore_type_id a =? id) l = [].
Proof.
  induction 1 as [|a l Ha _ IH]; simpl; auto.
  destruct (Z.eqb_spec (sub_chore_type_id a) id); [contradiction | exact IH].
Qed.

Lemma filter_chore_all (id : Z) (l : list ChoreSubmission) :
  Forall (fun a => sub_chore_type_id a = id) l ->
  filter (fun a => sub_chore_type_id a =? id) l = l.
Proof.
  induction 1 as [|a l Ha _ IH]; simpl; auto.
  rewrite Ha, Z.eqb_refl, IH. reflexivity.
Qed.

(** The iteration for the claimed chore type itself. *)
Lemma submit_step_target u today now form st nm er c st' nm' er' n lim :
  parse_count (count_field form (ct_id c)) = Some n -> 0 < n ->
  get_limit_for_day c (db_weekday today) = Some lim ->
  submit_step u today now form (st, nm, er) c = Some (st', nm', er') ->
  let cnt := today_submissions st u (ct_id c) today in
  (0 < lim /\ Z.max 0 (lim - cnt) < n ->
     submissions st' = submissions st /\
     er' = er ++ [if Z.max 0 (lim - cnt) =? 0 then ErrLimitReached (ct_name c)
                  else ErrOnlyMore (ct_name c) (lim - cnt) n]) /\
  (~ (0 < lim /\ Z.max 0 (lim - cnt) < n) ->
     exists added, submissions st' = submissions st ++ added /\
       List.length added = Z.to_nat n /\
       Forall (fun a => sub_user_id a = u /\ sub_chore_type_id a = ct_id c /\
                        status a = Pending /\ notes a = stored_notes form (ct_id c)) added).
Proof.
  intros Hp Hn Hl H cnt. unfold submit_step in H. rewrite Hp, Hl in H.
  replace (n <=? 0) with false in H by (symmetry; apply Z.leb_gt; lia).
  fold cnt in H.
  assert (Hadm : Some (set_submissions st
      (add_submissions (Z.to_nat n) u (ct_id c) (stored_notes form (ct_id c)) now
         (submissions st)), nm ++ repeat (ct_name c) (Z.to_nat n), er)
      = Some (st', nm', er') ->
      exists added, submissions st' = submissions st ++ added /\
       List.length added = Z.to_nat n /\
       Forall (fun a => sub_user_id a = u /\ sub_chore_type_id a = ct_id c /\
                        status a = Pending /\ notes a = stored_notes form (ct_id c)) added).
  { intros E. injection E as <- _ _.
    destruct (add_submissions_shape (Z.to_nat n) u (ct_id c) (stored_notes form (ct_id c))
                now (submissions st)) as (added & Heq & Hlen & Hall).
    exists added. simpl. auto. }
  destruct (Z.ltb_spec 0 lim) as [Hlim|Hlim].
  - destruct (Z.ltb_spec (lim - cnt) n) as [Hr|Hr].
    + split; [|intros Hno; exfalso; apply Hno; split; lia].
      intros _. destruct (Z.ltb_spec 0 (lim - cnt)) as [Hp0|Hp0];
        injection H as <- _ <-; split; auto.
      * replace (Z.max 0 (lim - cnt) =? 0) with false by (symmetry; apply Z.eqb_neq; lia).
        reflexivity.
      * replace (Z.max 0 (lim - cnt) =? 0) with true by (symmetry; apply Z.eqb_eq; lia).
        reflexivity.
    + split; [intros [_ Hc]; lia | intros _; apply Hadm, H].
  - split; [intros [Hc _]; lia | intros _; apply Hadm, H].
Qed.

Lemma split_unique_id (cts : list ChoreType) (c : ChoreType) :
  NoDup (map ct_id cts) -> In c cts ->
  exists l1 l2, cts = l1 ++ c :: l2 /\
    (forall x, In x l1 \/ In x l2 -> ct_id x <> ct_id c).
Proof.
  intros Hnd Hin. destruct (in_split c cts Hin) as (l1 & l2 & ->).
  exists l1, l2. split; [reflexivity|].
  rewrite map_app in Hnd. simpl in Hnd. apply NoDup_remove_2 in Hnd.
  intros x Hx E. apply Hnd. rewrite <- E, in_app_iff.
  destruct Hx as [Hx|Hx]; [left | right]; now apply in_map.
Qed.

Lemma ids_of_filter_other (l : list ChoreType) (id : Z) :
  (forall x, In x l -> ct_id x <> id) ->
  forall y, In y (map ct_id (filter active l)) -> y <> id.
Proof.
  intros H y Hy. apply in_map_iff in Hy as (x & <- & Hx).
  apply filter_In in Hx as [Hx _]. now apply H.
Qed.

Lemma loop_others_shape u today now form (l : list ChoreType) id st nm er st' nm' er' :
  (forall x, In x l -> ct_id x <> id) ->
  submit_loop u today now form (filter active l) (st, nm, er) = Some (st', nm', er') ->
  exists added es, submissions st' = submissions st ++ added /\ er' = er ++ es /\
    Forall (fun a => sub_chore_type_id a <> id) added.
Proof.
  intros Hl H. destruct (submit_loop_shape _ _ _ _ _ _ _ _ _ _ _ H)
    as (_ & _ & _ & added & es & Hs & He & Hall).
  exists added, es. split; [exact Hs|]. split; [exact He|].
  eapply Forall_impl; [|exact Hall]. simpl. intros a [Hi _].
  exact (ids_of_filter_other l id Hl _ Hi).
Qed.

(** C3 (as the code does it, for an active chore type): in a batch, a
    claim of [n > 0] for an active chore type [c] whose limit today is [lim]
    and whose count today is [cnt] either, when [lim > 0] and
    [n > max(0, lim - cnt)], creates no submission of [c] and records
    "Daily limit already reached" (remaining 0) or "Only lim - cnt more
    allowed" (remaining > 0); or else creates exactly [n] pending
    submissions of [c] for the child, all with the same stored note. This
    holds for each chore type of the batch whatever the others do. *)
Theorem submit_batch_per_template (st : Store) (u today : Z) (now : Timestamp)
  (form : SubmitForm) (c : ChoreType) (n lim : Z) :
  NoDup (map ct_id (chore_types st)) ->
  In c (chore_types st) -> active c = true ->
  parse_count (count_field form (ct_id c)) = Some n -> 0 < n ->
  weekday_slot_spec c (sunday_based_weekday today) = Some lim ->
  exists st' names errs fl added,
    submit_chore st u today now form = Some ((st', names, errs), fl) /\
    submissions st' = submissions st ++ added /\
    let cnt := today_submissions st u (ct_id c) today in
    let mine := filter (fun a => sub_chore_type_id a =? ct_id c) added in
    (0 < lim /\ Z.max 0 (lim - cnt) < n ->
       mine = [] /\
       In (if Z.max 0 (lim - cnt) =? 0 then ErrLimitReached (ct_name c)
           else ErrOnlyMore (ct_name c) (lim - cnt) n) errs) /\
    (~ (0 < lim /\ Z.max 0 (lim - cnt) < n) ->
       List.length mine = Z.to_nat n /\
       Forall (fun a => sub_user_id a = u /\ status a = Pending /\
                        notes a = stored_notes form (ct_id c)) mine).
Proof.
  intros Hnd Hin Hact Hp Hn Hlim.
  assert (Hl : get_limit_for_day c (db_weekday today) = Some lim).
  { rewrite limits_slot, db_weekday_mod; [exact Hlim|].
    rewrite db_weekday_mod. pose proof (Z.mod_pos_bound today 7). lia. }
  destruct (split_unique_id _ _ Hnd Hin) as (l1 & l2 & Hsplit & Hother).
  assert (Hf : filter active (chore_types st) = filter active l1 ++ c :: filter active l2).
  { rewrite Hsplit, filter_app. simpl. rewrite Hact. reflexivity. }
  unfold submit_chore. rewrite Hf, submit_loop_app.
  destruct (submit_loop_some u today now form (filter active l1) (st, [], []))
    as [[[st1 nm1] er1] H1]. rewrite H1. cbn [submit_loop].
  destruct (submit_step_some u today now form (st1, nm1, er1) c)
    as [[[st2 nm2] er2] H2]. rewrite H2.
  destruct (submit_loop_some u today now form (filter active l2) (st2, nm2, er2))
    as [[[st3 nm3] er3] H3]. rewrite H3.
  destruct (loop_others_shape u today now form l1 (ct_id c) _ _ _ _ _ _
              (fun x Hx => Hother x (or_introl Hx)) H1) as (a1 & es1 & S1 & E1 & F1).
  destruct (loop_others_shape u today now form l2 (ct_id c) _ _ _ _ _ _
              (fun x Hx => Hother x (or_intror Hx)) H3) as (a3 & es3 & S3 & E3 & F3).
  destruct (submit_step_shape _ _ _ _ _ _ _ _ _ _ _ H2)
    as (_ & _ & _ & a2 & es2 & S2 & _ & F2).
  assert (Hcnt : today_submissions st1 u (ct_id c) today = today_submissions st u (ct_id c) today)
    by exact (today_submissions_other st st1 a1 u (ct_id c) today S1 F1).
  pose proof (submit_step_target u today now form st1 nm1 er1 c st2 nm2 er2 n lim Hp Hn Hl H2)
    as Htarget. cbn zeta in Htarget. rewrite Hcnt in Htarget.
  destruct Htarget as [Hrej Hadm].
  exists st3, nm3, er3. eexists. exists (a1 ++ a2 ++ a3).
  split; [reflexivity|].
  split; [rewrite S3, S2, S1, <- !app_assoc; reflexivity|].
  cbn zeta.
  assert (Hmine : filter (fun a => sub_chore_type_id a =? ct_id c) (a1 ++ a2 ++ a3) = a2).
  { rewrite !filter_app, (filter_chore_none _ a1 F1), (filter_chore_none _ a3 F3).
    rewrite filter_chore_all, app_nil_r; [reflexivity|].
    eapply Forall_impl; [|exact F2]. simpl. tauto. }
  rewrite Hmine. split.
  - intros Hc. destruct (Hrej Hc) as [Hs2 He2]. split.
    + rewrite S2 in Hs2. apply (app_inv_head (submissions st1)).
      rewrite app_nil_r. exact Hs2.
    + rewrite E3, He2. apply in_or_app. left. apply in_or_app. right. now left.
  - intros Hc. destruct (Hadm Hc) as (added & Hs2 & Hlen & Hall).
    rewrite S2 in Hs2. apply app_inv_head in Hs2. subst added.
    split; [exact Hlen|].
    eapply Forall_impl; [|exact Hall]. simpl. tauto.
Qed.

Lemma demo_ids_nodup : NoDup (map ct_id (chore_types demo_store)).
Proof.
  simpl. repeat constructor; simpl; intuition discriminate.
Qed.

(** Three claims: "Dishes" three times (limit 0: admitted), "Clean Room"
    once on a Wednesday it was already done (limit reached), and "Clean
    Room" twice on the Thursday after (only one more allowed). *)
Lemma submit_batch_per_template_witness :
  today_submissions demo_store 2 (ct_id clean_room) wednesday = 1 /\
  today_submissions demo_store 2 (ct_id clean_room) (wednesday + 1) = 0 /\
  (exists st' names errs fl added,
    submit_chore demo_store 2 wednesday demo_now demo_form = Some ((st', names, errs), fl) /\
    submissions st' = submissions demo_store ++ added /\
    let cnt := today_submissions demo_store 2 (ct_id dishes) wednesday in
    let mine := filter (fun a => sub_chore_type_id a =? ct_id dishes) added in
    (0 < 0 /\ Z.max 0 (0 - cnt) < 3 ->
       mine = [] /\
       In (if Z.max 0 (0 - cnt) =? 0 then ErrLimitReached (ct_name dishes)
           else ErrOnlyMore (ct_name dishes) (0 - cnt) 3) errs) /\
    (~ (0 < 0 /\ Z.max 0 (0 - cnt) < 3) ->
       List.length mine = Z.to_nat 3 /\
       Forall (fun a => sub_user_id a = 2 /\ status a = Pending /\
                        notes a = stored_notes demo_form (ct_id dishes)) mine)) /\
  (exists st' names errs fl added,
    submit_chore demo_store 2 wednesday demo_now demo_form = Some ((st', names, errs), fl) /\
    submissions st' = submissions demo_store ++ added /\
    let cnt := today_submissions demo_store 2 (ct_id clean_room) wednesday in
    let mine := filter (fun a => sub_chore_type_id a =? ct_id clean_room) added in
    (0 < 1 /\ Z.max 0 (1 - cnt) < 1 ->
       mine = [] /\
       In (if Z.max 0 (1 - cnt) =? 0 then ErrLimitReached (ct_name clean_room)
           else ErrOnlyMore (ct_name clean_room) (1 - cnt) 1) errs) /\
    (~ (0 < 1 /\ Z.max 0 (1 - cnt) < 1) ->
       List.length mine = Z.to_nat 1 /\
       Forall (fun a => sub_user_id a = 2 /\ status a = Pending /\
                        notes a = stored_notes demo_form (ct_id clean_room)) mine)) /\
  (exists st' names errs fl added,
    submit_chore demo_store 2 (wednesday + 1) demo_now clean_two_form = Some ((st', names, errs), fl) /\
    submissions st' = submissions demo_store ++ added /\
    let cnt := today_submissions demo_store 2 (ct_id clean_room) (wednesday + 1) in
    let mine := filter (fun a => sub_chore_type_id a =? ct_id clean_room) added in
    (0 < 1 /\ Z.max 0 (1 - cnt) < 2 ->
       mine = [] /\
       In (if Z.max 0 (1 - cnt) =? 0 then ErrLimitReached (ct_name clean_room)
           else ErrOnlyMore (ct_name clean_room) (1 - cnt) 2) errs) /\
    (~ (0 < 1 /\ Z.max 0 (1 - cnt) < 2) ->
       List.length mine = Z.to_nat 2 /\
       Forall (fun a => sub_user_id a = 2 /\ status a = Pending /\
                        notes a = stored_notes clean_two_form (ct_id clean_room)) mine)).
Proof.
  split; [reflexivity|]. split; [reflexivity|].
  split; [|split];
    (apply submit_batch_per_template;
     [exact demo_ids_nodup | simpl; auto | reflexivity | reflexivity | lia |
      vm_compute; reflexivity]).
Defined.

(* ------------------------------------------------------------------ *)
(** ** Only active chore types are admitted *)

(** C8: for every store (chore type ids unique, as primary keys are) and
    every batch request, every submission [submit_chore] creates references
    a chore type whose [active] flag was true when it was admitted. *)
Theorem submit_only_active_templates (st : Store) (u today : Z) (now : Timestamp)
  (form : SubmitForm) st' nm er fl :
  NoDup (map ct_id (chore_types st)) ->
  submit_chore st u today now form = Some ((st', nm, er), fl) ->
  exists added, submissions st' = submissions st ++ added /\
    forall a, In a added ->
      exists c, find_chore_type (chore_types st) (sub_chore_type_id a) = Some c /\
                active c = true.
Proof.
  intros Hnd H. unfold submit_chore in H.
  destruct (submit_loop u today now form (filter active (chore_types st)) (st, [], []))
    as [[[st1 nm1] er1]|] eqn:Hl; [|discriminate].
  injection H as <- _ _ _.
  destruct (submit_loop_shape _ _ _ _ _ _ _ _ _ _ _ Hl)
    as (_ & _ & _ & added & es & Hs & _ & Hall).
  exists added. split; [exact Hs|].
  intros a Ha. rewrite Forall_forall in Hall. destruct (Hall a Ha) as [Hi _].
  apply in_map_iff in Hi as (c & Hc & Hin). apply filter_In in Hin as [Hin Hact].
  exists c. rewrite <- Hc. split; [now apply find_chore_type_unique | exact Hact].
Qed.

Lemma submit_only_active_templates_witness :
  exists st' nm er fl,
    submit_chore demo_store 2 wednesday demo_now demo_form = Some ((st', nm, er), fl) /\
    exists added, submissions st' = submissions demo_store ++ added /\
      forall a, In a added ->
        exists c, find_chore_type (chore_types demo_store) (sub_chore_type_id a) = Some c /\
                  active c = true.
Proof.
  do 4 eexists. split; [reflexivity|].
  eapply (submit_only_active_templates demo_store 2 wednesday demo_now demo_form);
    [exact demo_ids_nodup | reflexivity].
Defined.

(* ------------------------------------------------------------------ *)
(** ** Approval *)

Lemma find_map_preserve {A} (p : A -> bool) (f : A -> A) (l : list A) :
  (forall x, p (f x) = p x) -> find p (map f l) = option_map f (find p l).
Proof.
  intros Hp. induction l as [|x r IH]; simpl; auto.
  rewrite Hp. destruct (p x); auto.
Qed.

Lemma find_submission_approved (subs : list ChoreSubmission) (sid : Z) (now : Timestamp)
  (s : ChoreSubmission) :
  find_submission subs sid = Some s ->
  find_submission (map (mark_approved sid now) subs) sid = Some (mark_approved sid now s).
Proof.
  intros H. unfold find_submission.
  rewrite find_map_preserve.
  - unfold find_submission in H. rewrite H. reflexivity.
  - intros x. unfold mark_approved. destruct (sub_id x =? sid) eqn:E; simpl; auto.
Qed.

Lemma find_submission_id (subs : list ChoreSubmission) (sid : Z) (s : ChoreSubmission) :
  find_submission subs sid = Some s -> sub_id s = sid.
Proof.
  unfold find_submission. intros H. apply find_some in H as [_ H].
  now apply Z.eqb_eq.
Qed.

Lemma sum_amounts_app (k : TxType) (u : Z) (l l' : list Transaction) :
  sum_amounts k u (l ++ l') = sum_amounts k u l + sum_amounts k u l'.
Proof. induction l as [|t r IH]; simpl; auto. rewrite IH. lia. Qed.

(** C4: approving an id no submission has fails with 404 (and so changes
    nothing); approving an existing submission (whose chore type exists)
    yields, in one committed store, exactly one new [chore] transaction for
    the submission's owner whose amount is the chore type's value, and the
    submission now has status approved and approval time [now]. *)
Theorem approve_submission_spec (st : Store) (sid : Z) (now : Timestamp)
  (s : ChoreSubmission) (c : ChoreType) :
  (find_submission (submissions st) sid = None ->
   approve_submission st sid now = inr NotFound404) /\
  (find_submission (submissions st) sid = Some s ->
   find_chore_type (chore_types st) (sub_chore_type_id s) = Some c ->
   exists st',
     approve_submission st sid now = inl (Some st') /\
     users st' = users st /\ chore_types st' = chore_types st /\
     (exists tx, transactions st' = transactions st ++ [tx] /\
        tx_type tx = TxChore /\ amount tx = ct_value c /\
        tx_user_id tx = sub_user_id s) /\
     (exists s', find_submission (submissions st') sid = Some s' /\
        status s' = Approved /\ date_approved s' = Some now /\
        sub_user_id s' = sub_user_id s /\ sub_chore_type_id s' = sub_chore_type_id s)).
Proof.
  split.
  - intros H. unfold approve_submission. rewrite H. reflexivity.
  - intros Hs Hc. unfold approve_submission. rewrite Hs, Hc.
    eexists. split; [reflexivity|]. simpl.
    split; [reflexivity|]. split; [reflexivity|]. split.
    + eexists. split; [reflexivity|]. simpl. auto.
    + exists (mark_approved sid now s). split; [now apply find_submission_approved|].
      unfold mark_approved. rewrite (find_submission_id _ _ _ Hs), Z.eqb_refl.
      simpl. auto.
Qed.

Lemma find_submission_unique (subs : list ChoreSubmission) (sid : Z) (s x : ChoreSubmission) :
  NoDup (map sub_id subs) -> find_submission subs sid = Some s ->
  In x subs -> sub_id x = sid -> x = s.
Proof.
  unfold find_submission.
  induction subs as [|y r IH]; simpl; [intros _ _ []|].
  intros Hnd Hf Hin Hx. apply NoDup_cons_iff in Hnd as [Hnotin Hnd'].
  destruct (Z.eqb_spec (sub_id y) sid) as [E|E].
  - injection Hf as <-. destruct Hin as [<- | Hin]; auto.
    exfalso. apply Hnotin. rewrite E, <- Hx. now apply in_map.
  - destruct Hin as [<- | Hin]; [contradiction|]. now apply IH.
Qed.

Lemma approved_values_reapprove (st : Store) (sid : Z) (now : Timestamp) (u : Z)
  (l : list ChoreSubmission) :
  (forall x, In x l -> sub_id x = sid -> status x = Approved) ->
  map (sub_value st)
    (filter (fun s => (sub_user_id s =? u) && status_eqb (status s) Approved)
            (map (mark_approved sid now) l))
  = map (sub_value st)
      (filter (fun s => (sub_user_id s =? u) && status_eqb (status s) Approved) l).
Proof.
  induction l as [|x r IH]; intros Hall; simpl; auto.
  pose proof (IH (fun y Hy => Hall y (or_intror Hy))) as IH'.
  destruct (Z.eqb_spec (sub_id x) sid) as [E|E].
  - assert (Hm : mark_approved sid now x =
                 mkSub (sub_id x) (sub_user_id x) (sub_chore_type_id x) Approved
                       (date_submitted x) (Some now) (notes x))
      by (unfold mark_approved; rewrite E, Z.eqb_refl; reflexivity).
    rewrite Hm, (Hall x (or_introl eq_refl) E). simpl.
    destruct (sub_user_id x =? u); simpl; rewrite IH'; reflexivity.
  - assert (Hm : mark_approved sid now x = x)
      by (unfold mark_approved; apply Z.eqb_neq in E; rewrite E; reflexivity).
    rewrite Hm.
    destruct ((sub_user_id x =? u) && status_eqb (status x) Approved); simpl;
      rewrite IH'; reflexivity.
Qed.

(** C5 (as the code does it): re-approving an already approved submission
    re-stamps its approval time and appends another [chore] transaction, so
    the owner's chore-transaction total grows by the chore type's value
    again; but approved earnings, fines, payments, and hence the balance
    both dashboards show, are unchanged, since they are computed from
    approved submissions and never from chore transactions. *)
Theorem reapprove_effect (st : Store) (sid : Z) (now : Timestamp)
  (s : ChoreSubmission) (c : ChoreType) :
  NoDup (map sub_id (submissions st)) ->
  find_submission (submissions st) sid = Some s -> status s = Approved ->
  find_chore_type (chore_types st) (sub_chore_type_id s) = Some c ->
  exists st',
    approve_submission st sid now = inl (Some st') /\
    (exists s', find_submission (submissions st') sid = Some s' /\
       status s' = Approved /\ date_approved s' = Some now) /\
    sum_amounts TxChore (sub_user_id s) (transactions st') =
      sum_amounts TxChore (sub_user_id s) (transactions st) + ct_value c /\
    (forall u,
       approved_earnings_spec st' u = approved_earnings_spec st u /\
       total_fines_spec st' u = total_fines_spec st u /\
       total_payments_spec st' u = total_payments_spec st u) /\
    (forall u d v v', child_dashboard st u d = Some v -> child_dashboard st' u d = Some v' ->
       cv_balance v' = cv_balance v).
Proof.
  intros Hnd Hs Hst Hc.
  assert (Hall : forall x, In x (submissions st) -> sub_id x = sid -> status x = Approved).
  { intros x Hin Hx. rewrite (find_submission_unique _ _ _ _ Hnd Hs Hin Hx). exact Hst. }
  unfold approve_submission. rewrite Hs, Hc.
  eexists. split; [reflexivity|].
  set (st' := mkStore _ _ _ _).
  assert (Hspec : forall u,
       approved_earnings_spec st' u = approved_earnings_spec st u /\
       total_fines_spec st' u = total_fines_spec st u /\
       total_payments_spec st' u = total_payments_spec st u).
  { intros u. unfold approved_earnings_spec, total_fines_spec, total_payments_spec.
    simpl. rewrite !sum_amounts_app. simpl. rewrite !andb_false_r. split; [|split; lia].
    change (sub_value st') with (sub_value st).
    rewrite approved_values_reapprove by exact Hall. reflexivity. }
  split.
  { exists (mark_approved sid now s). split; [now apply find_submission_approved|].
    unfold mark_approved. rewrite (find_submission_id _ _ _ Hs), Z.eqb_refl. simpl. auto. }
  split.
  { simpl. rewrite sum_amounts_app. simpl. rewrite Z.eqb_refl. simpl. lia. }
  split; [exact Hspec|].
  intros u d v v' Hv Hv'.
  destruct (child_dashboard_balance _ _ _ _ Hv) as (a & Ha & _ & _ & Hb).
  destruct (child_dashboard_balance _ _ _ _ Hv') as (a' & Ha' & _ & _ & Hb').
  destruct (Hspec u) as (E1 & E2 & E3).
  rewrite Hb, Hb', E2, E3. rewrite E1, Ha in Ha'. injection Ha' as <-. reflexivity.
Qed.

Lemma approve_submission_spec_witness :
  approve_submission demo_store 9 demo_now = inr NotFound404 /\
  exists st',
    approve_submission demo_store 2 demo_now = inl (Some st') /\
    users st' = users demo_store /\ chore_types st' = chore_types demo_store /\
    (exists tx, transactions st' = transactions demo_store ++ [tx] /\
       tx_type tx = TxChore /\ amount tx = ct_value dishes /\ tx_user_id tx = 2) /\
    (exists s', find_submission (submissions st') 2 = Some s' /\
       status s' = Approved /\ date_approved s' = Some demo_now /\
       sub_user_id s' = 2 /\ sub_chore_type_id s' = 2).
Proof.
  split.
  - apply (proj1 (approve_submission_spec demo_store 9 demo_now
             (mkSub 2 2 2 Pending (mkTs wednesday 300) None (Some "Done!"%string)) dishes)).
    reflexivity.
  - apply (proj2 (approve_submission_spec demo_store 2 demo_now
             (mkSub 2 2 2 Pending (mkTs wednesday 300) None (Some "Done!"%string)) dishes));
      reflexivity.
Defined.

Lemma reapprove_effect_witness :
  exists st',
    approve_submission demo_store 1 demo_now = inl (Some st') /\
    (exists s', find_submission (submissions st') 1 = Some s' /\
       status s' = Approved /\ date_approved s' = Some demo_now) /\
    sum_amounts TxChore 2 (transactions st') =
      sum_amounts TxChore 2 (transactions demo_store) + ct_value clean_room /\
    (forall u,
       approved_earnings_spec st' u = approved_earnings_spec demo_store u /\
       total_fines_spec st' u = total_fines_spec demo_store u /\
       total_payments_spec st' u = total_payments_spec demo_store u) /\
    (forall u d v v', child_dashboard demo_store u d = Some v ->
       child_dashboard st' u d = Some v' -> cv_balance v' = cv_balance v).
Proof.
  apply (reapprove_effect demo_store 1 demo_now
           (mkSub 1 2 1 Approved (mkTs wednesday 100) (Some (mkTs wednesday 200)) None)
           clean_room).
  - simpl. repeat constructor; simpl; intuition discriminate.
  - reflexivity.
  - reflexivity.
  - reflexivity.
Defined.

(** C5 as stated fails: re-approving the already approved "Clean Room"
    submission (value 500) leaves the child's approved earnings at 500 and
    the dashboard balance at 300; the earnings are not counted twice. *)
Lemma reapprove_no_double_earnings :
  ct_value clean_room = 500 /\
  exists st',
    approve_submission demo_store 1 demo_now = inl (Some st') /\
    approved_earnings_spec demo_store 2 = Some 500 /\
    approved_earnings_spec st' 2 = Some 500 /\
    approved_earnings_spec st' 2 <> Some (500 + ct_value clean_room) /\
    match child_dashboard demo_store 2 wednesday, child_dashboard st' 2 wednesday with
    | Some v, Some v' => cv_balance v = 300 /\ cv_balance v' = 300
    | _, _ => False
    end.
Proof.
  split; [reflexivity|].
  eexists. split; [reflexivity|].
  vm_compute. split; [reflexivity|]. split; [reflexivity|].
  split; [discriminate | split; reflexivity].
Qed.

(* ------------------------------------------------------------------ *)
(** ** Fines and payments *)

(** C6 (as the code does it): [add_fine] appends exactly one [fine]
    transaction for the first child account, with the posted description
    and amount, and changes nothing else, whenever a child account exists,
    the description is non-empty and the amount parses as a number — of any
    sign, zero included; otherwise nothing is recorded. [add_payment] is the
    same without the description. *)
Theorem fine_payment_recording (st : Store) (d : option string) (amt : option FormNum)
  (now : Timestamp) (child : User) (dd : string) (a : Z) :
  (first_child st = Some child -> d = Some dd -> dd <> EmptyString -> amt = Some (NumOk a) ->
   snd (add_fine st d amt now) = FlashFineAdded /\
   users (fst (add_fine st d amt now)) = users st /\
   chore_types (fst (add_fine st d amt now)) = chore_types st /\
   submissions (fst (add_fine st d amt now)) = submissions st /\
   exists tx, transactions (fst (add_fine st d amt now)) = transactions st ++ [tx] /\
     tx_type tx = TxFine /\ amount tx = a /\ tx_description tx = dd /\
     tx_user_id tx = user_id child) /\
  (first_child st = None \/ str_truthy d = false \/ (forall z, amt <> Some (NumOk z)) ->
   fst (add_fine st d amt now) = st) /\
  (first_child st = Some child -> amt = Some (NumOk a) ->
   snd (add_payment st amt now) = FlashPaymentRecorded /\
   users (fst (add_payment st amt now)) = users st /\
   chore_types (fst (add_payment st amt now)) = chore_types st /\
   submissions (fst (add_payment st amt now)) = submissions st /\
   exists tx, transactions (fst (add_payment st amt now)) = transactions st ++ [tx] /\
     tx_type tx = TxPayment /\ amount tx = a /\ tx_user_id tx = user_id child) /\
  (first_child st = None \/ (forall z, amt <> Some (NumOk z)) ->
   fst (add_payment st amt now) = st).
Proof.
  split; [|split; [|split]].
  - intros Hc -> Hdd ->. unfold add_fine. rewrite Hc. simpl.
    replace (String.eqb dd EmptyString) with false
      by (symmetry; apply String.eqb_neq; exact Hdd).
    simpl. repeat split; auto. eexists. split; [reflexivity|]. simpl. auto.
  - intros H. unfold add_fine.
    destruct (first_child st) as [c|] eqn:Hc; [|reflexivity].
    destruct H as [H|[H|H]]; [discriminate| |].
    + rewrite H. reflexivity.
    + destruct (str_truthy d && num_truthy amt); [|reflexivity].
      destruct amt as [[|z|]|]; try reflexivity. exfalso. exact (H z eq_refl).
  - intros Hc ->. unfold add_payment. rewrite Hc. simpl.
    repeat split; auto. eexists. split; [reflexivity|]. simpl. auto.
  - intros H. unfold add_payment.
    destruct (first_child st) as [c|] eqn:Hc; [|reflexivity].
    destruct H as [H|H]; [discriminate|].
    destruct (num_truthy amt); [|reflexivity].
    destruct amt as [[|z|]|]; try reflexivity. exfalso. exact (H z eq_refl).
Qed.

Lemma fine_payment_recording_witness :
  (snd (add_fine demo_store (Some "Bad behavior"%string) (Some (NumOk 200)) demo_now)
     = FlashFineAdded /\
   users (fst (add_fine demo_store (Some "Bad behavior"%string) (Some (NumOk 200)) demo_now))
     = users demo_store /\
   chore_types (fst (add_fine demo_store (Some "Bad behavior"%string) (Some (NumOk 200)) demo_now))
     = chore_types demo_store /\
   submissions (fst (add_fine demo_store (Some "Bad behavior"%string) (Some (NumOk 200)) demo_now))
     = submissions demo_store /\
   exists tx, transactions (fst (add_fine demo_store (Some "Bad behavior"%string)
                                   (Some (NumOk 200)) demo_now))
              = transactions demo_store ++ [tx] /\
     tx_type tx = TxFine /\ amount tx = 200 /\ tx_description tx = "Bad behavior"%string /\
     tx_user_id tx = 2) /\
  fst (add_fine demo_store (Some ""%string) (Some (NumOk 200)) demo_now) = demo_store /\
  (snd (add_payment demo_store (Some (NumOk 300)) demo_now) = FlashPaymentRecorded /\
   users (fst (add_payment demo_store (Some (NumOk 300)) demo_now)) = users demo_store /\
   chore_types (fst (add_payment demo_store (Some (NumOk 300)) demo_now)) = chore_types demo_store /\
   submissions (fst (add_payment demo_store (Some (NumOk 300)) demo_now)) = submissions demo_store /\
   exists tx, transactions (fst (add_payment demo_store (Some (NumOk 300)) demo_now))
              = transactions demo_store ++ [tx] /\
     tx_type tx = TxPayment /\ amount tx = 300 /\ tx_user_id tx = 2) /\
  fst (add_payment demo_store (Some NumBad) demo_now) = demo_store.
Proof.
  split; [|split; [|split]].
  - apply (fine_payment_recording demo_store (Some "Bad behavior"%string) (Some (NumOk 200))
             demo_now (mkUser 2 "child" Child) "Bad behavior" 200);
      [reflexivity | reflexivity | discriminate | reflexivity].
  - apply (fine_payment_recording demo_store (Some ""%string) (Some (NumOk 200))
             demo_now (mkUser 2 "child" Child) "" 200).
    right; left; reflexivity.
  - apply (fine_payment_recording demo_store None (Some (NumOk 300))
             demo_now (mkUser 2 "child" Child) "" 300); reflexivity.
  - apply (fine_payment_recording demo_store None (Some NumBad)
             demo_now (mkUser 2 "child" Child) "" 0).
    right; discriminate.
Defined.

(** C6 as stated fails: a fine of -5.00 and a payment of 0.00 are both
    recorded, with the success message, rather than rejected. *)
Lemma fine_payment_nonpositive_recorded :
  add_fine demo_store (Some "Bad behavior"%string) (Some (NumOk (-500))) demo_now
  = (mkStore (users demo_store) (chore_types demo_store) (submissions demo_store)
       (transactions demo_store ++ [mkTx 3 2 TxFine "Bad behavior" (-500) demo_now]),
     FlashFineAdded) /\
  add_payment demo_store (Some (NumOk 0)) demo_now
  = (mkStore (users demo_store) (chore_types demo_store) (submissions demo_store)
       (transactions demo_store ++ [mkTx 3 2 TxPayment "Payment made" 0 demo_now]),
     FlashPaymentRecorded).
Proof. split; vm_compute; reflexivity. Qed.

(* ------------------------------------------------------------------ *)
(** ** What the balance reads *)

Lemma txs_of_nonchore (st : Store) (u : Z) (k : TxType) :
  k <> TxChore ->
  txs_of st u k =
  filter (fun t => (tx_user_id t =? u) && tx_type_eqb (tx_type t) k)
         (filter not_chore_tx (transactions st)).
Proof.
  intros Hk. unfold txs_of. rewrite filter_and. apply filter_ext. intros t.
  unfold not_chore_tx.
  destruct (tx_type t), k; simpl; try (exfalso; congruence);
    rewrite ?andb_false_r; reflexivity.
Qed.

Lemma child_dashboard_ext (st1 st2 : Store) (u d : Z) :
  chore_types st1 = chore_types st2 -> submissions st1 = submissions st2 ->
  filter not_chore_tx (transactions st1) = filter not_chore_tx (transactions st2) ->
  child_dashboard st1 u d = child_dashboard st2 u d.
Proof.
  intros Hc Hs Ht.
  assert (Hsv : sub_value st1 = sub_value st2) by (unfold sub_value; rewrite Hc; reflexivity).
  assert (Hav : forall c, availability_for st1 u d c = availability_for st2 u d c)
    by (intros; unfold availability_for, today_submissions; rewrite Hs; reflexivity).
  assert (Hloop : forall cts acc,
             availability_loop st1 u d cts acc = availability_loop st2 u d cts acc).
  { induction cts as [|c r IH]; intros acc; simpl; auto.
    rewrite Hav. destruct (availability_for st2 u d c); auto. }
  assert (HF : forall k, k <> TxChore -> txs_of st1 u k = txs_of st2 u k)
    by (intros k Hk; rewrite !txs_of_nonchore by exact Hk; rewrite Ht; reflexivity).
  unfold child_dashboard.
  rewrite Hc, Hs, Hsv, Hloop, (HF TxFine), (HF TxPayment) by discriminate.
  reflexivity.
Qed.

Lemma parent_balance_ext (st1 st2 : Store) :
  users st1 = users st2 ->
  chore_types st1 = chore_types st2 -> submissions st1 = submissions st2 ->
  filter not_chore_tx (transactions st1) = filter not_chore_tx (transactions st2) ->
  parent_balance st1 = parent_balance st2.
Proof.
  intros Hu Hc Hs Ht.
  assert (Hsv : sub_value st1 = sub_value st2) by (unfold sub_value; rewrite Hc; reflexivity).
  assert (HF : forall u k, k <> TxChore -> txs_of st1 u k = txs_of st2 u k)
    by (intros u k Hk; rewrite !txs_of_nonchore by exact Hk; rewrite Ht; reflexivity).
  unfold parent_balance, parent_dashboard, first_child. rewrite Hu, Hs, Hsv.
  destruct (find _ (users st2)) as [ch|]; [|reflexivity].
  destruct (py_sum_opt 0 _); [|reflexivity]. simpl.
  rewrite (HF _ TxFine), (HF _ TxPayment) by discriminate. reflexivity.
Qed.

Lemma py_sum_opt_shift (f f' : ChoreSubmission -> option Z) (g : ChoreSubmission -> Z)
  (l : list ChoreSubmission) :
  (forall x, f' x = option_map (fun v => v + g x) (f x)) ->
  py_sum_opt 0 (map f' l) =
  option_map (fun r => r + fold_right (fun x s => g x + s) 0 l) (py_sum_opt 0 (map f l)).
Proof.
  intros Hf. induction l as [|x r IH]; simpl.
  - f_equal; lia.
  - rewrite Hf. destruct (f x) as [v|]; simpl; auto.
    rewrite (py_sum_opt_acc (v + g x)), (py_sum_opt_acc v), IH.
    destruct (py_sum_opt 0 (map f r)); simpl; auto. f_equal. lia.
Qed.

Lemma fold_count (id delta : Z) (l : list ChoreSubmission) :
  fold_right (fun x s => (if sub_chore_type_id x =? id then delta else 0) + s) 0 l =
  Z.of_nat (List.length (filter (fun x => sub_chore_type_id x =? id) l)) * delta.
Proof.
  induction l as [|x r IH]; simpl; auto.
  rewrite IH. destruct (sub_chore_type_id x =? id);
    [cbn [filter List.length]; rewrite Nat2Z.inj_succ; ring | cbn [filter]; ring].
Qed.

Lemma edit_value_only_result (st : Store) (c : ChoreType) (v' : Z) :
  In c (chore_types st) -> NoDup (map ct_id (chore_types st)) ->
  edit_chore_type st (ct_id c) (value_only v') =
  inl (mkStore (users st)
         (map (fun x => if ct_id x =? ct_id c then
                  mkChoreType (ct_id c) (ct_name c) (ct_description c) v'
                    (sunday_limit c) (monday_limit c) (tuesday_limit c) (wednesday_limit c)
                    (thursday_limit c) (friday_limit c) (saturday_limit c) (active c)
                else x) (chore_types st))
         (submissions st) (transactions st),
       FlashChoreUpdated (ct_name c)).
Proof.
  intros Hin Hnd. unfold edit_chore_type.
  rewrite (find_chore_type_unique _ _ Hnd Hin). reflexivity.
Qed.

Lemma sub_value_after_edit (st st' : Store) (c : ChoreType) (v' : Z) fl (s : ChoreSubmission) :
  In c (chore_types st) -> NoDup (map ct_id (chore_types st)) ->
  edit_chore_type st (ct_id c) (value_only v') = inl (st', fl) ->
  sub_value st' s =
  option_map (fun v => v + (if sub_chore_type_id s =? ct_id c then v' - ct_value c else 0))
             (sub_value st s).
Proof.
  intros Hin Hnd H. rewrite edit_value_only_result in H by assumption.
  injection H as <- _. unfold sub_value, find_chore_type. simpl.
  rewrite find_map_preserve.
  2: { intros x. destruct (ct_id x =? ct_id c) eqn:E; simpl; [|reflexivity].
       apply Z.eqb_eq in E. rewrite E. reflexivity. }
  destruct (find (fun x => ct_id x =? sub_chore_type_id s) (chore_types st)) as [x|] eqn:Hf;
    simpl; auto.
  f_equal. pose proof Hf as Hf'. apply find_some in Hf' as [Hxin Hx]. apply Z.eqb_eq in Hx.
  destruct (Z.eqb_spec (ct_id x) (ct_id c)) as [E|E].
  - simpl. rewrite <- Hx, E, Z.eqb_refl.
    assert (x = c).
    { pose proof (find_chore_type_unique _ _ Hnd Hin) as Hc.
      pose proof (find_chore_type_unique _ _ Hnd Hxin) as Hx'.
      rewrite E in Hx'. congruence. }
    subst x. lia.
  - rewrite <- Hx. replace (ct_id x =? ct_id c) with false by (symmetry; now apply Z.eqb_neq).
    lia.
Qed.

(** C7: the balance never reads chore transactions. Two stores that differ
    only in their chore transactions give the same child dashboard (balance
    included) and the same parent-dashboard balance; and editing a chore
    type's value to [v'] changes the approved earnings, and the child's
    balance, by [v' - old value] for each of the child's approved
    submissions of that chore type, already approved ones included. *)
Theorem balance_reads_submissions_not_chore_txs (st1 st2 : Store) (u d : Z)
  (c : ChoreType) (v' : Z) :
  chore_types st1 = chore_types st2 -> submissions st1 = submissions st2 ->
  filter not_chore_tx (transactions st1) = filter not_chore_tx (transactions st2) ->
  NoDup (map ct_id (chore_types st1)) -> In c (chore_types st1) ->
  let k := Z.of_nat (List.length
             (filter (fun s => sub_chore_type_id s =? ct_id c)
                (filter (fun s => (sub_user_id s =? u) && status_eqb (status s) Approved)
                   (submissions st1)))) in
  child_dashboard st1 u d = child_dashboard st2 u d /\
  (users st1 = users st2 -> parent_balance st1 = parent_balance st2) /\
  exists st',
    edit_chore_type st1 (ct_id c) (value_only v') = inl (st', FlashChoreUpdated (ct_name c)) /\
    submissions st' = submissions st1 /\ transactions st' = transactions st1 /\
    approved_earnings_spec st' u =
      option_map (fun a => a + k * (v' - ct_value c)) (approved_earnings_spec st1 u) /\
    (forall v v'', child_dashboard st1 u d = Some v -> child_dashboard st' u d = Some v'' ->
       cv_balance v'' = cv_balance v + k * (v' - ct_value c)).
Proof.
  intros Hc Hs Ht Hnd Hin k.
  split; [now apply child_dashboard_ext|].
  split; [intros Hu; now apply parent_balance_ext|].
  eexists. split; [apply edit_value_only_result; assumption|].
  set (st' := mkStore _ _ _ _).
  assert (Hedit : edit_chore_type st1 (ct_id c) (value_only v') =
                  inl (st', FlashChoreUpdated (ct_name c)))
    by (apply edit_value_only_result; assumption).
  assert (Hspec : approved_earnings_spec st' u =
      option_map (fun a => a + k * (v' - ct_value c)) (approved_earnings_spec st1 u)).
  { unfold approved_earnings_spec.
    change (submissions st') with (submissions st1).
    rewrite (py_sum_opt_shift (sub_value st1) (sub_value st')
               (fun s => if sub_chore_type_id s =? ct_id c then v' - ct_value c else 0)).
    - rewrite fold_count. reflexivity.
    - intros x. exact (sub_value_after_edit st1 st' c v' _ x Hin Hnd Hedit). }
  split; [reflexivity|]. split; [reflexivity|]. split; [exact Hspec|].
  intros v v'' Hv Hv''.
  destruct (child_dashboard_balance _ _ _ _ Hv) as (a & Ha & _ & _ & Hb).
  destruct (child_dashboard_balance _ _ _ _ Hv'') as (a' & Ha' & _ & _ & Hb').
  rewrite Hspec, Ha in Ha'. simpl in Ha'. injection Ha' as <-.
  rewrite Hb, Hb'. unfold total_fines_spec, total_payments_spec.
  change (transactions st') with (transactions st1). lia.
Qed.

Lemma balance_reads_submissions_not_chore_txs_witness :
  child_dashboard demo_store 2 wednesday = child_dashboard demo_store_no_chore 2 wednesday /\
  (users demo_store = users demo_store_no_chore ->
   parent_balance demo_store = parent_balance demo_store_no_chore) /\
  exists st',
    edit_chore_type demo_store 1 (value_only 700) = inl (st', FlashChoreUpdated "Clean Room") /\
    submissions st' = submissions demo_store /\ transactions st' = transactions demo_store /\
    approved_earnings_spec st' 2 =
      option_map (fun a => a + 1 * (700 - 500)) (approved_earnings_spec demo_store 2) /\
    (forall v v'', child_dashboard demo_store 2 wednesday = Some v ->
       child_dashboard st' 2 wednesday = Some v'' ->
       cv_balance v'' = cv_balance v + 1 * (700 - 500)).
Proof.
  apply (balance_reads_submissions_not_chore_txs demo_store demo_store_no_chore 2 wednesday
           clean_room 700).
  - reflexivity.
  - reflexivity.
  - reflexivity.
  - exact demo_ids_nodup.
  - simpl; auto.
Defined.

(* ------------------------------------------------------------------ *)
(** ** Day abbreviations and out-of-range day indices *)

(** X1: the day abbreviation of a template is the concatenation, in
    Sunday..Saturday order, of the letters of exactly those day indices
    whose limit [get_limit_for_day] reads as positive. *)
Theorem day_abbreviations_positive_days (c : ChoreType) :
  get_day_abbreviations c =
  String.concat EmptyString
    (map day_letter
       (filter (fun d => match get_limit_for_day c (Z.of_nat d) with
                         | Some l => 0 <? l
                         | None => false
                         end) (seq 0 7))).
Proof.
  unfold get_day_abbreviations, get_limit_for_day. simpl.
  destruct (0 <? sunday_limit c), (0 <? monday_limit c), (0 <? tuesday_limit c),
    (0 <? wednesday_limit c), (0 <? thursday_limit c), (0 <? friday_limit c),
    (0 <? saturday_limit c); reflexivity.
Qed.

(* ------------------------------------------------------------------ *)
(** ** Adding chore types *)

Lemma max_list_bound (l : list Z) (x : Z) :
  In x l -> x <= fold_right Z.max 0 l.
Proof.
  induction l as [|y r IH]; simpl; [intros []|].
  intros [<- | H]; [lia | specialize (IH H); lia].
Qed.

Lemma next_ct_id_fresh (cts : list ChoreType) :
  ~ In (next_ct_id cts) (map ct_id cts).
Proof.
  unfold next_ct_id. intros H. apply max_list_bound in H. lia.
Qed.

(** X4: [add_chore_type] raises (an unhandled [ValueError], nothing stored)
    exactly when one of the seven day fields is present but is not an
    integer string (the empty string included), whatever the name,
    description and value fields hold. *)
Theorem add_chore_type_raises_iff (st : Store) (f : AddForm) :
  add_chore_type st f = None <->
  Exists (fun x => x = Some NumEmpty \/ x = Some NumBad) (limit_fields f).
Proof.
  assert (Hp : forall x, parse_limit x = None <-> x = Some NumEmpty \/ x = Some NumBad).
  { intros [[|z|]|]; simpl; split; intuition discriminate. }
  rewrite Exists_exists.
  setoid_rewrite <- Hp. unfold add_chore_type, limit_fields. simpl.
  destruct (parse_limit (af_sunday f)) eqn:E1;
  [destruct (parse_limit (af_monday f)) eqn:E2;
  [destruct (parse_limit (af_tuesday f)) eqn:E3;
  [destruct (parse_limit (af_wednesday f)) eqn:E4;
  [destruct (parse_limit (af_thursday f)) eqn:E5;
  [destruct (parse_limit (af_friday f)) eqn:E6;
  [destruct (parse_limit (af_saturday f)) eqn:E7 | ] | ] | ] | ] | ] | ].
  all: split; [intros H | intros (x & Hin & Hx)].
  all: try (eexists; split; [|eassumption]; tauto).
  all: try reflexivity.
  - exfalso. destruct (_ && _ && _); [destruct (af_value f) as [[]|]|]; discriminate.
  - exfalso. repeat destruct Hin as [<- | Hin]; congruence.
Qed.

Lemma add_chore_type_raises_iff_witness :
  add_chore_type demo_store
    (mkAddForm (Some "Walk Dog"%string) (Some "Around the block"%string)
       (Some (NumOk 150)) None None (Some NumBad) None None None None) = None.
Proof.
  apply (proj2 (add_chore_type_raises_iff demo_store _)).
  simpl. right. right. left. right. reflexivity.
Defined.



(* ------------------------------------------------------------------ *)
(** ** Toggling and editing chore types *)

Lemma toggle_record_involutive (c : ChoreType) : toggle_record (toggle_record c) = c.
Proof. destruct c; unfold toggle_record; simpl. rewrite negb_involutive. reflexivity. Qed.

Lemma map_toggle_ids (id : Z) (l : list ChoreType) :
  map ct_id (map (fun x => if ct_id x =? id then toggle_record x else x) l) = map ct_id l.
Proof.
  induction l as [|x r IH]; simpl; auto. rewrite IH.
  destruct (ct_id x =? id); reflexivity.
Qed.

Lemma find_after_toggle (id k : Z) (l : list ChoreType) :
  find_chore_type (map (fun x => if ct_id x =? id then toggle_record x else x) l) k =
  option_map (fun x => if ct_id x =? id then toggle_record x else x) (find_chore_type l k).
Proof.
  unfold find_chore_type. apply find_map_preserve.
  intros x. destruct (ct_id x =? id); reflexivity.
Qed.

Lemma sub_value_toggle (st : Store) (id : Z) (s : ChoreSubmission) :
  sub_value (mkStore (users st)
     (map (fun x => if ct_id x =? id then toggle_record x else x) (chore_types st))
     (submissions st) (transactions st)) s = sub_value st s.
Proof.
  unfold sub_value. simpl. rewrite find_after_toggle.
  destruct (find_chore_type (chore_types st) (sub_chore_type_id s)) as [c|]; simpl; auto.
  destruct (ct_id c =? id); reflexivity.
Qed.

(** X6: toggling an id no chore type has answers 404; toggling an existing
    one twice gives back the database it started from; and a toggle only
    changes [active] flags: the user, submission and transaction tables and
    every chore type's id and value are unchanged. *)
Theorem toggle_chore_type_roundtrip (st st1 : Store) (id : Z) (fl : ChoreFlash) :
  (find_chore_type (chore_types st) id = None -> toggle_chore_type st id = inr NotFound404) /\
  (toggle_chore_type st id = inl (st1, fl) ->
   (exists fl', toggle_chore_type st1 id = inl (st, fl')) /\
   users st1 = users st /\ submissions st1 = submissions st /\
   transactions st1 = transactions st /\
   map ct_id (chore_types st1) = map ct_id (chore_types st) /\
   map ct_value (chore_types st1) = map ct_value (chore_types st)).
Proof.
  split.
  - intros H. unfold toggle_chore_type. rewrite H. reflexivity.
  - unfold toggle_chore_type. intros H.
    destruct (find_chore_type (chore_types st) id) as [c|] eqn:Hc; [|discriminate].
    injection H as <- _. simpl. repeat split.
    + rewrite find_after_toggle, Hc. simpl. eexists. f_equal. f_equal.
      destruct st as [us cts subs txs]. simpl. f_equal. clear Hc.
      induction cts as [|x r IH]; simpl; auto. rewrite IH.
      destruct (Z.eqb_spec (ct_id x) id) as [E|E].
      * unfold toggle_record at 1. simpl. rewrite E, Z.eqb_refl.
        rewrite toggle_record_involutive. reflexivity.
      * apply Z.eqb_neq in E. rewrite E. reflexivity.
    + apply map_toggle_ids.
    + clear Hc. induction (chore_types st) as [|x r IH]; simpl; auto. rewrite IH.
      destruct (ct_id x =? id); reflexivity.
Qed.

Lemma toggle_chore_type_roundtrip_witness :
  (find_chore_type (chore_types demo_store) 9 = None ->
   toggle_chore_type demo_store 9 = inr NotFound404) /\
  toggle_chore_type demo_store 2 =
    inl (fst (match toggle_chore_type demo_store 2 with inl p => p | inr _ => (demo_store, FlashFillRequired) end),
         FlashToggled "Dishes" false) /\
  exists fl', toggle_chore_type
     (fst (match toggle_chore_type demo_store 2 with inl p => p | inr _ => (demo_store, FlashFillRequired) end)) 2
     = inl (demo_store, fl').
Proof.
  split; [apply (toggle_chore_type_roundtrip demo_store demo_store 9 FlashFillRequired)|].
  split; [reflexivity|].
  exact (proj1 (proj2 (toggle_chore_type_roundtrip demo_store _ 2 (FlashToggled "Dishes" false))
                  eq_refl)).
Defined.

Lemma child_balance_ext (st1 st2 : Store) (u d : Z) :
  (forall s, sub_value st1 s = sub_value st2 s) ->
  submissions st1 = submissions st2 -> transactions st1 = transactions st2 ->
  option_map cv_balance (child_dashboard st1 u d) =
  option_map cv_balance (child_dashboard st2 u d).
Proof.
  intros Hsv Hs Ht. unfold child_dashboard, txs_of. cbv zeta.
  rewrite Hs, Ht, !(map_ext _ _ Hsv).
  destruct (py_sum_opt 0 (map (sub_value st2) (filter (fun s => status_eqb (status s) Pending) _)));
    [|reflexivity].
  destruct (py_sum_opt 0 (map (sub_value st2) (filter (fun s => status_eqb (status s) Approved) _)));
    [|reflexivity].
  destruct (availability_loop_some st1 u d
              (sort_by by_name (filter active (chore_types st1))) []) as [a1 ->].
  destruct (availability_loop_some st2 u d
              (sort_by by_name (filter active (chore_types st2))) []) as [a2 ->].
  reflexivity.
Qed.

Lemma parent_balance_sub_value_ext (st1 st2 : Store) :
  (forall s, sub_value st1 s = sub_value st2 s) -> users st1 = users st2 ->
  submissions st1 = submissions st2 -> transactions st1 = transactions st2 ->
  parent_balance st1 = parent_balance st2.
Proof.
  intros Hsv Hu Hs Ht. unfold parent_balance, parent_dashboard, first_child, txs_of.
  cbv zeta. rewrite Hu, Hs, Ht.
  destruct (find _ (users st2)) as [ch|]; [|reflexivity].
  rewrite (map_ext _ _ Hsv). destruct (py_sum_opt 0 _); reflexivity.
Qed.

(** X7: deactivating or reactivating a chore type changes no balance: the
    approved earnings, fines and payments of every account are the same
    afterwards, the child dashboard shows the same balance, and the parent
    dashboard the same current balance; approved submissions of a
    deactivated chore type keep counting. *)
Theorem toggle_keeps_balances (st st1 : Store) (id : Z) (fl : ChoreFlash) :
  toggle_chore_type st id = inl (st1, fl) ->
  (forall u, approved_earnings_spec st1 u = approved_earnings_spec st u /\
             total_fines_spec st1 u = total_fines_spec st u /\
             total_payments_spec st1 u = total_payments_spec st u) /\
  (forall u d, option_map cv_balance (child_dashboard st1 u d) =
               option_map cv_balance (child_dashboard st u d)) /\
  parent_balance st1 = parent_balance st.
Proof.
  unfold toggle_chore_type. intros H.
  destruct (find_chore_type (chore_types st) id) as [c|] eqn:Hc; [|discriminate].
  injection H as <- _.
  pose proof (sub_value_toggle st id) as Hsv.
  split; [|split].
  - intros u. unfold approved_earnings_spec, total_fines_spec, total_payments_spec.
    rewrite (map_ext _ _ Hsv). auto.
  - intros u d. apply child_balance_ext; auto.
  - apply parent_balance_sub_value_ext; auto.
Qed.

Lemma toggle_keeps_balances_witness :
  toggle_chore_type demo_store 1 =
    inl (fst (match toggle_chore_type demo_store 1 with inl p => p | inr _ => (demo_store, FlashFillRequired) end),
         FlashToggled "Clean Room" false) /\
  parent_balance
    (fst (match toggle_chore_type demo_store 1 with inl p => p | inr _ => (demo_store, FlashFillRequired) end))
  = parent_balance demo_store.
Proof.
  split; [reflexivity|].
  exact (proj2 (proj2 (toggle_keeps_balances demo_store _ 1 (FlashToggled "Clean Room" false)
                         eq_refl))).
Defined.

Lemma map_edit_ids (id : Z) (c c' : ChoreType) (l : list ChoreType) :
  ct_id c' = id ->
  map ct_id (map (fun x => if ct_id x =? id then c' else x) l) = map ct_id l.
Proof.
  intros Hc. induction l as [|x r IH]; simpl; auto. rewrite IH.
  destruct (Z.eqb_spec (ct_id x) id) as [E|]; [rewrite Hc, E|]; reflexivity.
Qed.

Lemma edit_record_keeps (c c' : ChoreType) (f : EditForm) :
  edit_record c f = Some c' -> ct_id c' = ct_id c /\ active c' = active c.
Proof.
  unfold edit_record. intros H.
  destruct (parse_field (ef_value f) (ct_value c)),
    (parse_field (ef_sunday f) (sunday_limit c)),
    (parse_field (ef_monday f) (monday_limit c)),
    (parse_field (ef_tuesday f) (tuesday_limit c)),
    (parse_field (ef_wednesday f) (wednesday_limit c)),
    (parse_field (ef_thursday f) (thursday_limit c)),
    (parse_field (ef_friday f) (friday_limit c)),
    (parse_field (ef_saturday f) (saturday_limit c)); try discriminate.
  injection H as <-. auto.
Qed.

(** X8: editing an id no chore type has answers 404; an edit where one
    numeric field fails to parse stores nothing at all, not even the name
    or description it assigned before the failing conversion; and no edit
    ever changes the user, submission and transaction tables, nor a chore
    type's id or (ids being unique) its [active] flag. *)
Theorem edit_chore_type_effects (st st' : Store) (id : Z) (f : EditForm) (c : ChoreType)
  (fl : ParentFlash) :
  (find_chore_type (chore_types st) id = None -> edit_chore_type st id f = inr NotFound404) /\
  (find_chore_type (chore_types st) id = Some c -> edit_record c f = None ->
   edit_chore_type st id f = inl (st, FlashInvalidValues)) /\
  (edit_chore_type st id f = inl (st', fl) ->
   users st' = users st /\ submissions st' = submissions st /\
   transactions st' = transactions st /\
   map ct_id (chore_types st') = map ct_id (chore_types st) /\
   (NoDup (map ct_id (chore_types st)) ->
    map active (chore_types st') = map active (chore_types st))).
Proof.
  unfold edit_chore_type. split; [|split].
  - intros H. rewrite H. reflexivity.
  - intros H1 H2. rewrite H1, H2. reflexivity.
  - destruct (find_chore_type (chore_types st) id) as [c0|] eqn:Hc; [|discriminate].
    destruct (edit_record c0 f) as [c'|] eqn:He.
    + intros H. injection H as <- _. simpl.
      destruct (edit_record_keeps _ _ _ He) as [Hid Ha].
      assert (Hid0 : ct_id c0 = id).
      { unfold find_chore_type in Hc. apply find_some in Hc as [_ Hc]. now apply Z.eqb_eq. }
      repeat split; [apply map_edit_ids; congruence|].
      intros Hnd. rewrite map_map. apply map_ext_in. intros x Hx.
      destruct (Z.eqb_spec (ct_id x) id) as [E|]; [|reflexivity].
      pose proof (find_chore_type_unique _ _ Hnd Hx) as Hx'.
      rewrite E, Hc in Hx'. injection Hx' as ->. exact Ha.
    + intros H. injection H as <- _. auto.
Qed.

Lemma edit_chore_type_effects_witness :
  (find_chore_type (chore_types demo_store) 1 = Some clean_room /\
   edit_record clean_room
     (mkEditForm (Some "Tidy Room"%string) None (Some NumBad) None None None None None None None)
   = None) /\
  edit_chore_type demo_store 1
    (mkEditForm (Some "Tidy Room"%string) None (Some NumBad) None None None None None None None)
  = inl (demo_store, FlashInvalidValues).
Proof.
  split; [split; reflexivity|].
  apply (proj1 (proj2 (edit_chore_type_effects demo_store demo_store 1 _ clean_room
                         FlashInvalidValues))); reflexivity.
Defined.

(* ------------------------------------------------------------------ *)
(** ** Approving a pending submission *)

Lemma mark_approved_other (sid : Z) (now : Timestamp) (l : list ChoreSubmission) :
  (forall x, In x l -> sub_id x <> sid) -> map (mark_approved sid now) l = l.
Proof.
  induction l as [|x r IH]; intros H; simpl; auto.
  rewrite IH by (intros; apply H; now right).
  unfold mark_approved. destruct (Z.eqb_spec (sub_id x) sid) as [E|]; [|reflexivity].
  exfalso. exact (H x (or_introl eq_refl) E).
Qed.

Lemma split_unique_sub (subs : list ChoreSubmission) (s : ChoreSubmission) :
  NoDup (map sub_id subs) -> In s subs ->
  exists l1 l2, subs = l1 ++ s :: l2 /\
    (forall x, In x l1 \/ In x l2 -> sub_id x <> sub_id s).
Proof.
  intros Hnd Hin. destruct (in_split s subs Hin) as (l1 & l2 & ->).
  exists l1, l2. split; [reflexivity|].
  rewrite map_app in Hnd. simpl in Hnd. apply NoDup_remove_2 in Hnd.
  intros x Hx E. apply Hnd. rewrite <- E, in_app_iff.
  destruct Hx as [Hx|Hx]; [left | right]; now apply in_map.
Qed.

(** X9: approving a pending submission [s] (ids being unique) adds exactly
    one summand, the value of its chore type, to the approved earnings of
    its owner, at the place of [s] in table order: the values summed before
    are [l1 ++ l2] and afterwards [l1 ++ [value] ++ l2]. The approved values
    summed for every other account, and the fine and payment rows of every
    account, are unchanged (the new chore transaction is neither). *)
Theorem approve_pending_adds_summand (st : Store) (sid : Z) (now : Timestamp)
  (s : ChoreSubmission) (c : ChoreType) :
  NoDup (map sub_id (submissions st)) ->
  find_submission (submissions st) sid = Some s -> status s = Pending ->
  find_chore_type (chore_types st) (sub_chore_type_id s) = Some c ->
  exists st', approve_submission st sid now = inl (Some st') /\
    (exists l1 l2,
       map (sub_value st) (filter (fun x => (sub_user_id x =? sub_user_id s) &&
                                           status_eqb (status x) Approved)
                            (submissions st)) = l1 ++ l2 /\
       map (sub_value st') (filter (fun x => (sub_user_id x =? sub_user_id s) &&
                                            status_eqb (status x) Approved)
                             (submissions st')) = l1 ++ Some (ct_value c) :: l2) /\
    (forall u, u <> sub_user_id s ->
       map (sub_value st') (filter (fun x => (sub_user_id x =? u) &&
                                            status_eqb (status x) Approved)
                             (submissions st')) =
       map (sub_value st) (filter (fun x => (sub_user_id x =? u) &&
                                           status_eqb (status x) Approved)
                            (submissions st))) /\
    (forall u, txs_of st' u TxFine = txs_of st u TxFine /\
               txs_of st' u TxPayment = txs_of st u TxPayment).
Proof.
  intros Hnd Hf Hp Hc.
  assert (Hid : sub_id s = sid) by exact (find_submission_id _ _ _ Hf).
  assert (Hin : In s (submissions st))
    by (unfold find_submission in Hf; exact (proj1 (find_some _ _ Hf))).
  unfold approve_submission. rewrite Hf, Hc.
  eexists. split; [reflexivity|].
  destruct (split_unique_sub _ _ Hnd Hin) as (l1 & l2 & Hsplit & Hother).
  set (ms := mkSub (sub_id s) (sub_user_id s) (sub_chore_type_id s) Approved
                   (date_submitted s) (Some now) (notes s)).
  set (tx := mkTx (next_tx_id (transactions st)) (sub_user_id s) TxChore
               ("Approved: " ++ ct_name c) (ct_value c) now).
  set (st1 := mkStore (users st) (chore_types st) (map (mark_approved sid now) (submissions st))
                (transactions st ++ [tx])).
  assert (Hsv : forall x, sub_value st1 x = sub_value st x) by reflexivity.
  assert (Hs1 : submissions st1 = l1 ++ ms :: l2).
  { simpl. rewrite Hsplit, map_app. simpl.
    rewrite !mark_approved_other by (intros x Hx; rewrite <- Hid; apply Hother; auto).
    unfold mark_approved. rewrite Hid, Z.eqb_refl. rewrite <- Hid. reflexivity. }
  assert (Hms : sub_value st ms = Some (ct_value c))
    by (unfold sub_value; simpl; rewrite Hc; reflexivity).
  assert (Hown : forall u,
    map (sub_value st1) (filter (fun x => (sub_user_id x =? u) &&
                                         status_eqb (status x) Approved) (submissions st1)) =
    map (sub_value st) (filter (fun x => (sub_user_id x =? u) &&
                                        status_eqb (status x) Approved) (l1 ++ ms :: l2))).
  { intros u. rewrite Hs1. apply map_ext. exact Hsv. }
  split; [|split].
  - rewrite Hown, Hsplit, !filter_app. cbn [filter].
    replace (sub_user_id ms) with (sub_user_id s) by reflexivity.
    replace (status ms) with Approved by reflexivity. rewrite Hp. cbn [status_eqb].
    rewrite Z.eqb_refl, andb_false_r. cbn [andb].
    exists (map (sub_value st) (filter (fun x => (sub_user_id x =? sub_user_id s) &&
                                                status_eqb (status x) Approved) l1)),
           (map (sub_value st) (filter (fun x => (sub_user_id x =? sub_user_id s) &&
                                                status_eqb (status x) Approved) l2)).
    rewrite !map_app. cbn [map]. rewrite Hms. split; reflexivity.
  - intros u Hu. apply Z.eqb_neq in Hu.
    rewrite Hown, Hsplit, !filter_app. cbn [filter].
    replace (sub_user_id ms) with (sub_user_id s) by reflexivity.
    rewrite Z.eqb_sym, Hu. cbn [andb]. destruct (sub_user_id s =? u); reflexivity.
  - intros u. unfold txs_of.
    replace (transactions st1) with (transactions st ++ [tx]) by reflexivity.
    rewrite !filter_app. unfold tx. simpl. rewrite !andb_false_r, !app_nil_r.
    split; reflexivity.
Qed.

Lemma approve_pending_adds_summand_witness :
  NoDup (map sub_id (submissions demo_store)) /\
  exists st', approve_submission demo_store 2 demo_now = inl (Some st') /\
    (exists l1 l2,
       map (sub_value demo_store) (filter (fun x => (sub_user_id x =? 2) &&
                                           status_eqb (status x) Approved)
                            (submissions demo_store)) = l1 ++ l2 /\
       map (sub_value st') (filter (fun x => (sub_user_id x =? 2) &&
                                            status_eqb (status x) Approved)
                             (submissions st')) = l1 ++ Some 200 :: l2) /\
    (forall u, u <> 2 ->
       map (sub_value st') (filter (fun x => (sub_user_id x =? u) &&
                                            status_eqb (status x) Approved)
                             (submissions st')) =
       map (sub_value demo_store) (filter (fun x => (sub_user_id x =? u) &&
                                           status_eqb (status x) Approved)
                            (submissions demo_store))) /\
    (forall u, txs_of st' u TxFine = txs_of demo_store u TxFine /\
               txs_of st' u TxPayment = txs_of demo_store u TxPayment).
Proof.
  assert (Hnd : NoDup (map sub_id (submissions demo_store)))
    by (simpl; repeat constructor; simpl; intuition discriminate).
  split; [exact Hnd|].
  exact (approve_pending_adds_summand demo_store 2 demo_now
           (mkSub 2 2 2 Pending (mkTs wednesday 300) None (Some "Done!"%string)) dishes
           Hnd eq_refl eq_refl eq_refl).
Defined.

(* ------------------------------------------------------------------ *)
(** ** The availability dict of the child dashboard *)

Lemma dict_get_set {V} (k k' : Z) (v : V) (d : list (Z * V)) :
  dict_get k (dict_set k' v d) = if k' =? k then Some v else dict_get k d.
Proof.
  induction d as [|[k0 v0] r IH]; simpl; auto.
  destruct (Z.eqb_spec k0 k') as [E0|E0]; simpl.
  - subst k0. destruct (Z.eqb_spec k' k); reflexivity.
  - rewrite IH. destruct (Z.eqb_spec k0 k), (Z.eqb_spec k' k); try reflexivity.
    subst. contradiction.
Qed.

Lemma find_ct_none (l : list ChoreType) (k : Z) :
  (forall x, In x l -> ct_id x <> k) -> find_chore_type l k = None.
Proof.
  unfold find_chore_type. induction l as [|x r IH]; intros H; simpl; auto.
  destruct (Z.eqb_spec (ct_id x) k) as [E|].
  - exfalso. exact (H x (or_introl eq_refl) E).
  - apply IH. intros; apply H; now right.
Qed.

Lemma NoDup_map_filter (l : list ChoreType) (keep : ChoreType -> bool) :
  NoDup (map ct_id l) -> NoDup (map ct_id (filter keep l)).
Proof.
  induction l as [|x r IH]; cbn [map filter]; [tauto|].
  intros Hnd. apply NoDup_cons_iff in Hnd as [Hn Hnd].
  destruct (keep x); simpl; auto.
  constructor; auto. intros Hin. apply Hn.
  apply in_map_iff in Hin as (y & Hy & Hin). apply filter_In in Hin as [Hin _].
  rewrite <- Hy. now apply in_map.
Qed.

Lemma availability_loop_get (st : Store) (u d : Z) (l : list ChoreType)
  (acc r : list (Z * Availability)) (k : Z) :
  NoDup (map ct_id l) -> availability_loop st u d l acc = Some r ->
  dict_get k r = match find_chore_type l k with
                 | Some c => availability_for st u d c
                 | None => dict_get k acc
                 end.
Proof.
  revert acc; induction l as [|c rest IH]; intros acc Hnd H; simpl in H.
  - injection H as <-. reflexivity.
  - apply NoDup_cons_iff in Hnd as [Hn Hnd].
    destruct (availability_for st u d c) as [a|] eqn:Ha; [|discriminate].
    rewrite (IH _ Hnd H). unfold find_chore_type. simpl.
    change (find (fun c0 => ct_id c0 =? k) rest) with (find_chore_type rest k).
    destruct (Z.eqb_spec (ct_id c) k) as [E|E].
    + rewrite find_ct_none.
      * rewrite dict_get_set, E, Z.eqb_refl. symmetry. exact Ha.
      * intros x Hx Ex. apply Hn. rewrite E, <- Ex. now apply in_map.
    + destruct (find_chore_type rest k); auto.
      rewrite dict_get_set. apply Z.eqb_neq in E. rewrite E. reflexivity.
Qed.

(** X10: when the child dashboard renders and chore type ids are unique,
    its [chore_availability] dict maps the id of every active chore type to
    that chore type's availability for the day, and has no entry for any
    other key (an inactive chore type's id included). *)
Theorem chore_availability_lookup (st : Store) (u d : Z) (v : ChildView) :
  NoDup (map ct_id (chore_types st)) ->
  child_dashboard st u d = Some v ->
  (forall c, In c (chore_types st) -> active c = true ->
     dict_get (ct_id c) (cv_chore_availability v) = availability_for st u d c) /\
  (forall k, (forall c, In c (chore_types st) -> active c = true -> ct_id c <> k) ->
     dict_get k (cv_chore_availability v) = None).
Proof.
  intros Hnd H. unfold child_dashboard in H.
  destruct (py_sum_opt 0 _) as [pe|]; [|discriminate].
  destruct (py_sum_opt 0 _) as [ae|]; [|discriminate].
  destruct (availability_loop _ _ _ _ _) as [av|] eqn:Hav; [|discriminate].
  injection H as <-. simpl.
  set (l := sort_by by_name (filter active (chore_types st))) in Hav.
  assert (Hperm : Permutation l (filter active (chore_types st))) by apply sort_by_perm.
  assert (Hndl : NoDup (map ct_id l)).
  { apply (Permutation_NoDup (Permutation_map ct_id (Permutation_sym Hperm))).
    now apply NoDup_map_filter. }
  split.
  - intros c Hin Hact.
    rewrite (availability_loop_get _ _ _ _ _ _ _ Hndl Hav).
    rewrite find_chore_type_unique; auto.
    apply (Permutation_in _ (Permutation_sym Hperm)). apply filter_In. auto.
  - intros k Hk.
    rewrite (availability_loop_get _ _ _ _ _ _ _ Hndl Hav).
    rewrite find_ct_none; [reflexivity|].
    intros x Hx. apply (Permutation_in _ Hperm) in Hx.
    apply filter_In in Hx as [Hx Ha]. now apply Hk.
Qed.

Lemma chore_availability_lookup_witness :
  NoDup (map ct_id (chore_types demo_store)) /\
  exists v, child_dashboard demo_store 2 wednesday = Some v /\
    dict_get 3 (cv_chore_availability v) = None.
Proof.
  split; [exact demo_ids_nodup|].
  destruct (child_dashboard_some demo_store 2 wednesday demo_refs_ok) as [v Hv].
  exists v. split; [exact Hv|].
  apply (proj2 (chore_availability_lookup demo_store 2 wednesday v demo_ids_nodup Hv)).
  intros c [<- | [<- | [<- | []]]]; simpl; congruence.
Defined.

(** X2: an active chore type whose seven limits are all 0 ("unlimited")
    has the empty day abbreviation, yet whenever the child dashboard
    renders (ids being unique) it lists that chore type, and its
    [chore_availability] entry says it can be submitted, with limit 0 and
    no remaining-count bound, whatever its count for the day. *)
Theorem unlimited_template_listed_no_days (st : Store) (u d : Z) (v : ChildView)
  (c : ChoreType) :
  NoDup (map ct_id (chore_types st)) -> In c (chore_types st) -> active c = true ->
  limits c = [0; 0; 0; 0; 0; 0; 0] ->
  child_dashboard st u d = Some v ->
  get_day_abbreviations c = EmptyString /\ In c (cv_chore_types v) /\
  exists a, dict_get (ct_id c) (cv_chore_availability v) = Some a /\
    can_submit a = true /\ limit a = 0 /\ remaining a = None /\
    today_count a = today_submissions st u (ct_id c) d.
Proof.
  intros Hnd Hin Hact Hl H. split.
  { unfold get_day_abbreviations. rewrite Hl. reflexivity. }
  unfold child_dashboard in H.
  destruct (py_sum_opt 0 _) as [pe|]; [|discriminate].
  destruct (py_sum_opt 0 _) as [ae|]; [|discriminate].
  destruct (availability_loop _ _ _ _ _) as [av|] eqn:Hav; [|discriminate].
  injection H as <-. simpl.
  set (l := sort_by by_name (filter active (chore_types st))) in *.
  assert (Hperm : Permutation l (filter active (chore_types st))) by apply sort_by_perm.
  assert (Hinl : In c l).
  { apply (Permutation_in _ (Permutation_sym Hperm)). apply filter_In. auto. }
  assert (Hndl : NoDup (map ct_id l)).
  { apply (Permutation_NoDup (Permutation_map ct_id (Permutation_sym Hperm))).
    now apply NoDup_map_filter. }
  split; [exact Hinl|].
  rewrite (availability_loop_get _ _ _ _ _ _ _ Hndl Hav).
  rewrite (find_chore_type_unique l c Hndl Hinl).
  unfold availability_for.
  destruct (get_limit_in_range c (db_weekday d)) as [lim Hlim].
  { rewrite db_weekday_mod. pose proof (Z.mod_pos_bound d 7). lia. }
  rewrite Hlim. unfold get_limit_for_day in Hlim. rewrite Hl in Hlim.
  assert (Hz : lim = 0).
  { revert Hlim. unfold py_index.
    destruct (_ && _); [|destruct (_ && _); [|discriminate]];
      intros H; apply nth_error_In in H; simpl in H; intuition. }
  subst lim. eexists. split; [reflexivity|]. simpl. auto.
Qed.

Lemma unlimited_template_listed_no_days_witness :
  NoDup (map ct_id (chore_types demo_store)) /\
  exists v, child_dashboard demo_store 2 wednesday = Some v /\
    get_day_abbreviations dishes = EmptyString /\ In dishes (cv_chore_types v) /\
    exists a, dict_get (ct_id dishes) (cv_chore_availability v) = Some a /\
      can_submit a = true /\ limit a = 0 /\ remaining a = None /\
      today_count a = today_submissions demo_store 2 (ct_id dishes) wednesday.
Proof.
  split; [exact demo_ids_nodup|].
  destruct (child_dashboard_some demo_store 2 wednesday demo_refs_ok) as [v Hv].
  exists v. split; [exact Hv|].
  apply (unlimited_template_listed_no_days demo_store 2 wednesday v dishes demo_ids_nodup);
    [simpl; auto | reflexivity | reflexivity | exact Hv].
Defined.

(* ------------------------------------------------------------------ *)
(** ** Submission: what a batch creates *)

(** What every submission the handler creates carries, stamps included. *)
Definition fresh_sub (u : Z) (now : Timestamp) (a : ChoreSubmission) : Prop :=
  sub_user_id a = u /\ status a = Pending /\ date_submitted a = now /\ date_approved a = None.

Lemma add_submissions_full (n : nat) (u cid : Z) (note : option string)
  (now : Timestamp) (subs : list ChoreSubmission) :
  exists added, add_submissions n u cid note now subs = subs ++ added /\
    List.length added = n /\
    Forall (fun a => sub_chore_type_id a = cid /\ fresh_sub u now a) added.
Proof.
  revert subs; induction n as [|k IH]; intros subs; simpl.
  - exists []. rewrite app_nil_r. auto.
  - destruct (IH (subs ++ [mkSub (next_sub_id subs) u cid Pending now None note]))
      as (added & Heq & Hlen & Hall).
    exists (mkSub (next_sub_id subs) u cid Pending now None note :: added).
    rewrite Heq, <- app_assoc. simpl. repeat split; auto.
    constructor; [|exact Hall]. unfold fresh_sub. simpl. auto.
Qed.

Lemma submit_step_full u today now form st nm er c st' nm' er' :
  submit_step u today now form (st, nm, er) c = Some (st', nm', er') ->
  users st' = users st /\ chore_types st' = chore_types st /\
  transactions st' = transactions st /\
  exists added, submissions st' = submissions st ++ added /\
    List.length nm' = (List.length nm + List.length added)%nat /\
    Forall (fun a => sub_chore_type_id a = ct_id c /\ fresh_sub u now a) added.
Proof.
  unfold submit_step.
  assert (Hnone : forall es, Some (st, nm, er ++ es) = Some (st', nm', er') ->
     users st' = users st /\ chore_types st' = chore_types st /\
     transactions st' = transactions st /\
     exists added, submissions st' = submissions st ++ added /\
       List.length nm' = (List.length nm + List.length added)%nat /\
       Forall (fun a => sub_chore_type_id a = ct_id c /\ fresh_sub u now a) added).
  { intros es H. injection H as <- <- _. repeat split; auto.
    exists []. rewrite app_nil_r. simpl. auto. }
  assert (Hadd : forall k, Some (set_submissions st
        (add_submissions k u (ct_id c) (stored_notes form (ct_id c)) now (submissions st)),
        nm ++ repeat (ct_name c) k, er) = Some (st', nm', er') ->
     users st' = users st /\ chore_types st' = chore_types st /\
     transactions st' = transactions st /\
     exists added, submissions st' = submissions st ++ added /\
       List.length nm' = (List.length nm + List.length added)%nat /\
       Forall (fun a => sub_chore_type_id a = ct_id c /\ fresh_sub u now a) added).
  { intros k H. injection H as <- <- _.
    destruct (add_submissions_full k u (ct_id c) (stored_notes form (ct_id c)) now
                (submissions st)) as (added & Heq & Hlen & Hall).
    simpl. repeat split; auto. exists added.
    rewrite length_app, repeat_length, Hlen. auto. }
  destruct (parse_count _) as [count|].
  2: { intros H. apply (Hnone []). rewrite app_nil_r. exact H. }
  destruct (count <=? 0).
  { intros H. apply (Hnone []). rewrite app_nil_r. exact H. }
  destruct (get_limit_for_day c (db_weekday today)) as [lim|]; [|discriminate].
  destruct (0 <? lim); [|apply Hadd].
  destruct (lim - today_submissions st u (ct_id c) today <? count); [|apply Hadd].
  destruct (0 <? _); apply Hnone.
Qed.

Lemma submit_loop_full u today now form cts st nm er st' nm' er' :
  submit_loop u today now form cts (st, nm, er) = Some (st', nm', er') ->
  users st' = users st /\ chore_types st' = chore_types st /\
  transactions st' = transactions st /\
  exists added, submissions st' = submissions st ++ added /\
    List.length nm' = (List.length nm + List.length added)%nat /\
    Forall (fun a => In (sub_chore_type_id a) (map ct_id cts) /\ fresh_sub u now a) added.
Proof.
  revert st nm er. induction cts as [|c r IH]; intros st nm er H; cbn [submit_loop] in H.
  - injection H as <- <- _. repeat split; auto. exists [].
    rewrite app_nil_r. simpl. auto.
  - destruct (submit_step u today now form (st, nm, er) c) as [[[st1 nm1] er1]|] eqn:Hs;
      [|discriminate].
    destruct (submit_step_full _ _ _ _ _ _ _ _ _ _ _ Hs)
      as (U1 & C1 & T1 & added1 & S1 & L1 & F1).
    destruct (IH _ _ _ H) as (U2 & C2 & T2 & added2 & S2 & L2 & F2).
    repeat split; try congruence.
    exists (added1 ++ added2).
    rewrite S2, S1, <- app_assoc. split; [reflexivity|].
    split; [rewrite L2, L1, length_app; lia|].
    apply Forall_app. split.
    + eapply Forall_impl; [|exact F1]. simpl. intros a [-> Hn]. auto.
    + eapply Forall_impl; [|exact F2]. simpl. intros a [Hi Hn]. auto.
Qed.

(** X11: [submit_chore] never raises, and it only ever appends to the
    submission table: users, chore types and transactions are unchanged,
    one new submission is created per submitted name it reports (so
    "N chores submitted" counts the rows added), each pending, owned by the
    submitting child, stamped [now] and not approved; and "Please select at
    least one chore" is flashed exactly when nothing was submitted and no
    claim was rejected. *)
Theorem submit_chore_effects (st : Store) (u today : Z) (now : Timestamp) (form : SubmitForm) :
  (exists r, submit_chore st u today now form = Some r) /\
  forall st' names errs fl,
  submit_chore st u today now form = Some ((st', names, errs), fl) ->
  users st' = users st /\ chore_types st' = chore_types st /\
  transactions st' = transactions st /\
  (exists added, submissions st' = submissions st ++ added /\
     List.length added = List.length names /\ Forall (fresh_sub u now) added) /\
  (In FlashSelectOne fl <-> names = [] /\ errs = []).
Proof.
  split.
  - unfold submit_chore.
    destruct (submit_loop_some u today now form (filter active (chore_types st)) (st, [], []))
      as [[[st' nm] er] ->]. eauto.
  - intros st' names errs fl H. unfold submit_chore in H.
    destruct (submit_loop _ _ _ _ _ _) as [[[st1 nm] er]|] eqn:Hl; [|discriminate].
    injection H as <- <- <- <-.
    destruct (submit_loop_full _ _ _ _ _ _ _ _ _ _ _ Hl)
      as (U & C & T & added & S & L & F).
    split; [exact U|]. split; [exact C|]. split; [exact T|]. split.
    + exists added. split; [exact S|]. split; [simpl in L; lia|].
      eapply Forall_impl; [|exact F]. simpl. tauto.
    + split.
      * intros Hin. destruct nm as [|n [|n2 r]], er as [|e r'];
          simpl in Hin; try (split; reflexivity);
          repeat (destruct Hin as [Hin|Hin]; [discriminate|]);
          try (apply in_app_iff in Hin as [Hin|Hin]);
          try (apply in_map_iff in Hin as (x & Hx & _); discriminate);
          simpl in Hin; tauto.
      * intros [-> ->]. simpl. auto.
Qed.

Lemma submit_chore_effects_witness :
  exists st' names errs fl,
    submit_chore demo_store 2 wednesday demo_now demo_form = Some ((st', names, errs), fl) /\
    List.length names = 3%nat /\
    (exists added, submissions st' = submissions demo_store ++ added /\
       List.length added = List.length names /\ Forall (fresh_sub 2 demo_now) added).
Proof.
  do 4 eexists. split; [reflexivity|]. split; [reflexivity|].
  exact (proj1 (proj2 (proj2 (proj2
           (proj2 (submit_chore_effects demo_store 2 wednesday demo_now demo_form) _ _ _ _
              eq_refl))))).
Defined.

(* ------------------------------------------------------------------ *)
(** ** Submission: the daily limit and the day of the stamps *)

Lemma today_submissions_app (st st' : Store) (added : list ChoreSubmission) (u id d : Z) :
  submissions st' = submissions st ++ added ->
  (today_submissions st' u id d <= today_submissions st u id d + Z.of_nat (List.length added))%Z.
Proof.
  intros Hs. unfold today_submissions. rewrite Hs, filter_app, length_app.
  pose proof (filter_length_le
    (fun s => (sub_user_id s =? u) && (sub_chore_type_id s =? id)
              && (ts_day (date_submitted s) =? d)) added). lia.
Qed.

Lemma submit_step_count_bound u today now form st nm er c st' nm' er' lim :
  submit_step u today now form (st, nm, er) c = Some (st', nm', er') ->
  get_limit_for_day c (db_weekday today) = Some lim -> 0 < lim ->
  today_submissions st' u (ct_id c) today <=
  Z.max (today_submissions st u (ct_id c) today) lim.
Proof.
  intros H Hl Hlim. unfold submit_step in H.
  destruct (parse_count _) as [count|].
  2: { injection H as <- _ _. lia. }
  destruct (Z.leb_spec count 0).
  { injection H as <- _ _. lia. }
  rewrite Hl in H.
  replace (0 <? lim) with true in H by (symmetry; apply Z.ltb_lt; exact Hlim).
  destruct (Z.ltb_spec (lim - today_submissions st u (ct_id c) today) count) as [Hr|Hr].
  { destruct (0 <? _); injection H as <- _ _; lia. }
  injection H as <- _ _.
  destruct (add_submissions_full (Z.to_nat count) u (ct_id c) (stored_notes form (ct_id c))
              now (submissions st)) as (added & Heq & Hlen & _).
  pose proof (today_submissions_app st
    (set_submissions st (add_submissions (Z.to_nat count) u (ct_id c)
       (stored_notes form (ct_id c)) now (submissions st))) added u (ct_id c) today Heq) as Hb.
  rewrite Hlen, Z2Nat.id in Hb by lia. lia.
Qed.

(** X12: one batch never takes a child's count of an active chore type
    with a positive limit for the day past that limit: after the request the
    count of today's submissions is at most the larger of the count before
    and the limit (ids being unique). *)
Theorem submit_respects_daily_limit (st : Store) (u today : Z) (now : Timestamp)
  (form : SubmitForm) (c : ChoreType) (lim : Z) st' names errs fl :
  NoDup (map ct_id (chore_types st)) ->
  In c (chore_types st) -> active c = true ->
  get_limit_for_day c (db_weekday today) = Some lim -> 0 < lim ->
  submit_chore st u today now form = Some ((st', names, errs), fl) ->
  today_submissions st' u (ct_id c) today <=
  Z.max (today_submissions st u (ct_id c) today) lim.
Proof.
  intros Hnd Hin Hact Hl Hlim H.
  destruct (split_unique_id _ _ Hnd Hin) as (l1 & l2 & Hsplit & Hother).
  assert (Hf : filter active (chore_types st) = filter active l1 ++ c :: filter active l2).
  { rewrite Hsplit, filter_app. simpl. rewrite Hact. reflexivity. }
  unfold submit_chore in H. rewrite Hf, submit_loop_app in H.
  destruct (submit_loop u today now form (filter active l1) (st, [], []))
    as [[[st1 nm1] er1]|] eqn:H1; [|discriminate].
  cbn [submit_loop] in H.
  destruct (submit_step u today now form (st1, nm1, er1) c)
    as [[[st2 nm2] er2]|] eqn:H2; [|discriminate].
  destruct (submit_loop u today now form (filter active l2) (st2, nm2, er2))
    as [[[st3 nm3] er3]|] eqn:H3; [|discriminate].
  injection H as <- _ _ _.
  destruct (loop_others_shape u today now form l1 (ct_id c) _ _ _ _ _ _
              (fun x Hx => Hother x (or_introl Hx)) H1) as (a1 & es1 & S1 & _ & F1).
  destruct (loop_others_shape u today now form l2 (ct_id c) _ _ _ _ _ _
              (fun x Hx => Hother x (or_intror Hx)) H3) as (a3 & es3 & S3 & _ & F3).
  rewrite (today_submissions_other st2 st3 a3 u (ct_id c) today S3 F3).
  rewrite <- (today_submissions_other st st1 a1 u (ct_id c) today S1 F1).
  exact (submit_step_count_bound _ _ _ _ _ _ _ _ _ _ _ _ H2 Hl Hlim).
Qed.

Lemma today_submissions_dated (st st' : Store) (added : list ChoreSubmission)
  (now : Timestamp) (u id d : Z) :
  submissions st' = submissions st ++ added ->
  Forall (fun a => date_submitted a = now) added -> ts_day now <> d ->
  today_submissions st' u id d = today_submissions st u id d.
Proof.
  intros Hs Hall Hd. unfold today_submissions. rewrite Hs, filter_app.
  replace (filter _ added) with (@nil ChoreSubmission); [now rewrite app_nil_r|].
  clear Hs. induction Hall as [|a l Ha _ IH]; simpl; auto.
  rewrite Ha. apply Z.eqb_neq in Hd. rewrite Hd, andb_false_r. exact IH.
Qed.

Lemma submit_step_sim u today now form st1 st2 nm er c st1' nm' er' :
  (forall id, today_submissions st1 u id today = today_submissions st2 u id today) ->
  submit_step u today now form (st1, nm, er) c = Some (st1', nm', er') ->
  exists st2', submit_step u today now form (st2, nm, er) c = Some (st2', nm', er').
Proof.
  intros HR H. unfold submit_step in *. rewrite <- HR.
  destruct (parse_count (count_field form (ct_id c))) as [count|].
  2: { injection H as _ <- <-. eauto. }
  destruct (count <=? 0). { injection H as _ <- <-. eauto. }
  destruct (get_limit_for_day c (db_weekday today)) as [lim|]; [|discriminate].
  destruct (0 <? lim).
  - destruct (lim - today_submissions st1 u (ct_id c) today <? count).
    + destruct (0 <? lim - today_submissions st1 u (ct_id c) today);
        injection H as _ <- <-; eauto.
    + injection H as _ <- <-; eauto.
  - injection H as _ <- <-; eauto.
Qed.

Lemma submit_loop_sim u today now form cts st1 st2 nm er st1' nm' er' :
  ts_day now <> today ->
  (forall id, today_submissions st1 u id today = today_submissions st2 u id today) ->
  submit_loop u today now form cts (st1, nm, er) = Some (st1', nm', er') ->
  exists st2', submit_loop u today now form cts (st2, nm, er) = Some (st2', nm', er').
Proof.
  intros Hd. revert st1 st2 nm er.
  induction cts as [|c r IH]; intros st1 st2 nm er HR H; cbn [submit_loop] in *.
  - injection H as _ <- <-. eauto.
  - destruct (submit_step u today now form (st1, nm, er) c) as [[[sa nma] era]|] eqn:H1;
      [|discriminate].
    destruct (submit_step_sim _ _ _ _ _ _ _ _ _ _ _ _ HR H1) as [sb H2]. rewrite H2.
    apply (IH sa sb); [|exact H].
    destruct (submit_step_full _ _ _ _ _ _ _ _ _ _ _ H1) as (_ & _ & _ & a1 & S1 & _ & F1).
    destruct (submit_step_full _ _ _ _ _ _ _ _ _ _ _ H2) as (_ & _ & _ & a2 & S2 & _ & F2).
    intros id.
    rewrite (today_submissions_dated st1 sa a1 now u id today S1), HR,
      (today_submissions_dated st2 sb a2 now u id today S2); auto;
      [eapply Forall_impl; [|exact F2] | eapply Forall_impl; [|exact F1]];
      unfold fresh_sub; simpl; tauto.
Qed.

(** X13: the daily count compares the UTC day of [date_submitted]
    ([utcnow()]) with the server's local day [date.today()]. When the two
    differ, the submissions a request creates are not counted for that
    day: every count of that day is unchanged, and posting the same form
    again is accepted and rejected exactly as the first time, so a limited
    chore can be submitted again and again. *)
Theorem submit_day_mismatch_not_counted (st : Store) (u today : Z) (now : Timestamp)
  (form : SubmitForm) st' names errs fl :
  ts_day now <> today ->
  submit_chore st u today now form = Some ((st', names, errs), fl) ->
  (forall u' id, today_submissions st' u' id today = today_submissions st u' id today) /\
  exists st'', submit_chore st' u today now form = Some ((st'', names, errs), fl).
Proof.
  intros Hd H. unfold submit_chore in *.
  destruct (submit_loop _ _ _ _ _ _) as [[[st1 nm] er]|] eqn:Hl; [|discriminate].
  injection H as <- <- <- <-.
  destruct (submit_loop_full _ _ _ _ _ _ _ _ _ _ _ Hl) as (_ & C & _ & added & S & _ & F).
  assert (Hc : forall u' id, today_submissions st1 u' id today = today_submissions st u' id today).
  { intros u' id. apply (today_submissions_dated st st1 added now); auto.
    eapply Forall_impl; [|exact F]. unfold fresh_sub. simpl. tauto. }
  split; [exact Hc|].
  rewrite C.
  destruct (submit_loop_sim u today now form (filter active (chore_types st)) st st1 [] []
              st1 nm er Hd (fun id => eq_sym (Hc u id)) Hl) as [st2 H2].
  rewrite H2. eauto.
Qed.

Lemma submit_respects_daily_limit_witness :
  exists st' names errs fl,
    submit_chore demo_store 2 wednesday demo_now demo_form = Some ((st', names, errs), fl) /\
    today_submissions st' 2 (ct_id clean_room) wednesday <=
    Z.max (today_submissions demo_store 2 (ct_id clean_room) wednesday) 1.
Proof.
  do 4 eexists. split; [reflexivity|].
  eapply (submit_respects_daily_limit demo_store 2 wednesday demo_now demo_form clean_room 1
           _ _ _ _ demo_ids_nodup); [simpl; auto | reflexivity | reflexivity | lia | reflexivity].
Defined.

(** Monday 00:30 UTC while the server's local date is still Sunday. *)
Definition late_sunday_now : Timestamp := mkTs (wednesday + 5) 1800.

(** Two "Clean Room" claims on a local Sunday. *)
Definition clean_twice_form : SubmitForm :=
  mkSubmitForm (fun id => if id =? 1 then Some (FInt 1) else None) (fun _ => None).

Lemma submit_day_mismatch_not_counted_witness :
  ts_day late_sunday_now <> wednesday + 4 /\
  exists st' names errs fl,
    submit_chore demo_store 2 (wednesday + 4) late_sunday_now clean_twice_form
      = Some ((st', names, errs), fl) /\
    names = ["Clean Room"%string] /\
    exists st'', submit_chore st' 2 (wednesday + 4) late_sunday_now clean_twice_form
      = Some ((st'', names, errs), fl).
Proof.
  assert (Hd : ts_day late_sunday_now <> wednesday + 4) by (unfold late_sunday_now; simpl; lia).
  split; [exact Hd|].
  do 4 eexists. split; [reflexivity|]. split; [reflexivity|].
  exact (proj2 (submit_day_mismatch_not_counted demo_store 2 (wednesday + 4) late_sunday_now
                  clean_twice_form _ _ _ _ Hd eq_refl)).
Defined.

(* ------------------------------------------------------------------ *)
(** ** Invariants of every database the app produces *)

Lemma NoDup_snoc {A} (l : list A) (x : A) :
  NoDup l -> ~ In x l -> NoDup (l ++ [x]).
Proof.
  intros Hnd Hx. apply NoDup_app; auto.
  - constructor; [intros []|constructor].
  - intros a Ha [<- | []]. contradiction.
Qed.

Lemma next_sub_id_fresh (subs : list ChoreSubmission) :
  ~ In (next_sub_id subs) (map sub_id subs).
Proof. unfold next_sub_id. intros H. apply max_list_bound in H. lia. Qed.

Lemma next_tx_id_fresh (txs : list Transaction) :
  ~ In (next_tx_id txs) (map tx_id txs).
Proof. unfold next_tx_id. intros H. apply max_list_bound in H. lia. Qed.

Lemma add_submissions_nodup (n : nat) (u cid : Z) (note : option string)
  (now : Timestamp) (subs : list ChoreSubmission) :
  NoDup (map sub_id subs) -> NoDup (map sub_id (add_submissions n u cid note now subs)).
Proof.
  revert subs; induction n as [|k IH]; intros subs Hnd; simpl; auto.
  apply IH. rewrite map_app. apply NoDup_snoc; [exact Hnd | apply next_sub_id_fresh].
Qed.

Lemma submit_step_as_add u today now form st nm er c st' nm' er' :
  submit_step u today now form (st, nm, er) c = Some (st', nm', er') ->
  exists k, submissions st' =
    add_submissions k u (ct_id c) (stored_notes form (ct_id c)) now (submissions st).
Proof.
  unfold submit_step.
  destruct (parse_count _) as [count|].
  2: { intros H. injection H as <- _ _. exists O. reflexivity. }
  destruct (count <=? 0).
  { intros H. injection H as <- _ _. exists O. reflexivity. }
  destruct (get_limit_for_day c (db_weekday today)) as [lim|]; [|discriminate].
  destruct (0 <? lim).
  - destruct (_ <? count).
    + destruct (0 <? _); intros H; injection H as <- _ _; exists O; reflexivity.
    + intros H. injection H as <- _ _. eexists. reflexivity.
  - intros H. injection H as <- _ _. eexists. reflexivity.
Qed.

Lemma submit_loop_nodup u today now form cts st nm er st' nm' er' :
  NoDup (map sub_id (submissions st)) ->
  submit_loop u today now form cts (st, nm, er) = Some (st', nm', er') ->
  NoDup (map sub_id (submissions st')).
Proof.
  revert st nm er. induction cts as [|c r IH]; intros st nm er Hnd H; cbn [submit_loop] in H.
  - injection H as <- _ _. exact Hnd.
  - destruct (submit_step u today now form (st, nm, er) c) as [[[st1 nm1] er1]|] eqn:Hs;
      [|discriminate].
    apply (IH st1 nm1 er1); [|exact H].
    destruct (submit_step_as_add _ _ _ _ _ _ _ _ _ _ _ Hs) as [k ->].
    now apply add_submissions_nodup.
Qed.

Lemma find_ct_exists (l : list ChoreType) (x : ChoreType) :
  In x l -> exists y, find_chore_type l (ct_id x) = Some y.
Proof.
  unfold find_chore_type. intros Hin.
  destruct (find (fun c => ct_id c =? ct_id x) l) as [y|] eqn:E; [eauto|].
  exfalso. apply (find_none _ _ E) in Hin. rewrite Z.eqb_refl in Hin. discriminate.
Qed.

Lemma find_ct_app (l l' : list ChoreType) (k : Z) (y : ChoreType) :
  find_chore_type l k = Some y -> find_chore_type (l ++ l') k = Some y.
Proof.
  unfold find_chore_type. induction l as [|x r IH]; simpl; [discriminate|].
  destruct (ct_id x =? k); auto.
Qed.

(** The invariant every request keeps. *)
Definition app_inv (st : Store) : Prop :=
  keys_unique st /\ refs_all st /\ users st = users init_database.

Lemma init_inv : app_inv init_database.
Proof.
  split; [|split; [intros s []|reflexivity]].
  unfold keys_unique. simpl.
  repeat split; repeat constructor; simpl; intuition discriminate.
Qed.

Lemma map_edit_find (l : list ChoreType) (id k : Z) (c' : ChoreType) :
  ct_id c' = id ->
  find_chore_type (map (fun x => if ct_id x =? id then c' else x) l) k =
  option_map (fun x => if ct_id x =? id then c' else x) (find_chore_type l k).
Proof.
  intros Hc. unfold find_chore_type. apply find_map_preserve.
  intros x. destruct (Z.eqb_spec (ct_id x) id) as [E|]; [rewrite Hc, E|]; reflexivity.
Qed.

Lemma mark_approved_ids (sid : Z) (now : Timestamp) (l : list ChoreSubmission) :
  map sub_id (map (mark_approved sid now) l) = map sub_id l.
Proof.
  induction l as [|x r IH]; simpl; auto. rewrite IH.
  unfold mark_approved. destruct (sub_id x =? sid); reflexivity.
Qed.

Lemma add_tx_inv (st : Store) u k d a now :
  app_inv st -> app_inv (add_tx st u k d a now).
Proof.
  intros (Hk & Hr & Hu). unfold add_tx, app_inv, keys_unique in *. simpl.
  destruct Hk as (K1 & K2 & K3 & K4). repeat split; auto.
  rewrite map_app. apply NoDup_snoc; [exact K4 | apply next_tx_id_fresh].
Qed.

Lemma handle_inv (st : Store) (r : Request) : app_inv st -> app_inv (handle st r).
Proof.
  intros Hinv. pose proof Hinv as (Hk & Hr & Hu).
  destruct Hk as (K1 & K2 & K3 & K4).
  destruct r as [u today now form | sid now | d amt now | amt now | f | id f | id]; simpl.
  - (* submit_chore *)
    unfold submit_chore.
    destruct (submit_loop _ _ _ _ _ _) as [[[st' nm] er]|] eqn:Hl; [|exact Hinv].
    destruct (submit_loop_full _ _ _ _ _ _ _ _ _ _ _ Hl) as (U & C & T & added & S & _ & F).
    unfold app_inv, keys_unique, refs_all. rewrite U, C, T.
    split; [split; [exact K1 | split; [exact K2 | split;
      [exact (submit_loop_nodup _ _ _ _ _ _ _ _ _ _ _ K3 Hl) | exact K4]]]|].
    split; [|exact Hu].
    intros s Hs. rewrite S in Hs. apply in_app_iff in Hs as [Hs|Hs]; [exact (Hr s Hs)|].
    rewrite Forall_forall in F. destruct (F s Hs) as [Hi _].
    apply in_map_iff in Hi as (x & Hx & Hin). apply filter_In in Hin as [Hin _].
    rewrite <- Hx. now apply find_ct_exists.
  - (* approve_submission *)
    unfold approve_submission.
    destruct (find_submission (submissions st) sid) as [s|]; [|exact Hinv].
    destruct (find_chore_type (chore_types st) (sub_chore_type_id s)) as [c|]; [|exact Hinv].
    unfold app_inv, keys_unique. simpl. repeat split; auto.
    + rewrite mark_approved_ids. exact K3.
    + rewrite map_app. apply NoDup_snoc; [exact K4 | apply next_tx_id_fresh].
    + intros x Hx. apply in_map_iff in Hx as (y & <- & Hy).
      unfold mark_approved. destruct (sub_id y =? sid); simpl; now apply Hr.
  - (* add_fine *)
    unfold add_fine. destruct (first_child st); [|exact Hinv].
    destruct (str_truthy d && num_truthy amt); [|exact Hinv].
    destruct amt as [[|a|]|]; try exact Hinv. now apply add_tx_inv.
  - (* add_payment *)
    unfold add_payment. destruct (first_child st); [|exact Hinv].
    destruct (num_truthy amt); [|exact Hinv].
    destruct amt as [[|a|]|]; try exact Hinv. now apply add_tx_inv.
  - (* add_chore_type *)
    unfold add_chore_type.
    destruct (parse_limit (af_sunday f)), (parse_limit (af_monday f)),
      (parse_limit (af_tuesday f)), (parse_limit (af_wednesday f)),
      (parse_limit (af_thursday f)), (parse_limit (af_friday f)),
      (parse_limit (af_saturday f)); try exact Hinv.
    destruct (_ && _ && _); [|exact Hinv].
    destruct (af_value f) as [[|v|]|]; try exact Hinv.
    unfold app_inv, keys_unique. simpl. repeat split; auto.
    + rewrite map_app. apply NoDup_snoc; [exact K2 | apply next_ct_id_fresh].
    + intros s Hs. destruct (Hr s Hs) as [y Hy]. exists y. now apply find_ct_app.
  - (* edit_chore_type *)
    unfold edit_chore_type.
    destruct (find_chore_type (chore_types st) id) as [c|] eqn:Hc; [|exact Hinv].
    destruct (edit_record c f) as [c'|] eqn:He; [|exact Hinv].
    assert (Hid : ct_id c' = id).
    { destruct (edit_record_keeps _ _ _ He) as [-> _].
      unfold find_chore_type in Hc. apply find_some in Hc as [_ Hc]. now apply Z.eqb_eq. }
    unfold app_inv, keys_unique. simpl. repeat split; auto.
    + rewrite (map_edit_ids id c c' _ Hid). exact K2.
    + intros s Hs. simpl. rewrite (map_edit_find _ _ _ _ Hid).
      destruct (Hr s Hs) as [y ->]. simpl. eauto.
  - (* toggle_chore_type *)
    unfold toggle_chore_type.
    destruct (find_chore_type (chore_types st) id) as [c|]; [|exact Hinv].
    unfold app_inv, keys_unique. simpl. repeat split; auto.
    + rewrite map_toggle_ids. exact K2.
    + intros s Hs. simpl. rewrite find_after_toggle.
      destruct (Hr s Hs) as [y ->]. simpl. eauto.
Qed.

Lemma run_inv (st : Store) (rs : list Request) : app_inv st -> app_inv (run st rs).
Proof.
  revert st; induction rs as [|r rest IH]; intros st H; simpl; auto.
  apply IH, handle_inv, H.
Qed.

(** X14: every database the app reaches from [setup.init_database] through
    any sequence of requests keeps unique primary keys in all four tables,
    has every submission referencing an existing chore type, and still
    holds exactly the two accounts the setup created (no route adds,
    changes or removes a user). *)
Theorem reachable_invariants (rs : list Request) :
  keys_unique (run init_database rs) /\
  (forall s, In s (submissions (run init_database rs)) ->
     exists c, find_chore_type (chore_types (run init_database rs)) (sub_chore_type_id s) = Some c) /\
  users (run init_database rs) = [mkUser 1 "parent" Parent; mkUser 2 "child" Child].
Proof.
  destruct (run_inv init_database rs init_inv) as (Hk & Hr & Hu). auto.
Qed.

(** X15: in every database reachable from [setup.init_database], the child
    dashboard renders (never raises) for every account and date, the parent
    dashboard renders a page for the setup's child account, and approving
    any id either answers 404 or succeeds, never raising. *)
Theorem reachable_pages_render (rs : list Request) :
  (forall u d, exists v, child_dashboard (run init_database rs) u d = Some v) /\
  (exists v, parent_dashboard (run init_database rs) = ParentPage v /\
             pv_child v = mkUser 2 "child" Child) /\
  (forall sid now, approve_submission (run init_database rs) sid now <> inl None).
Proof.
  destruct (run_inv init_database rs init_inv) as (Hk & Hr & Hu).
  set (st := run init_database rs) in *.
  split; [|split].
  - intros u d. apply child_dashboard_some. intros s Hs _. now apply Hr.
  - unfold parent_dashboard, first_child. rewrite Hu. simpl.
    destruct (py_sum_opt_some (sub_value st)
                (filter (fun s => (sub_user_id s =? 2) && status_eqb (status s) Approved)
                   (submissions st)) 0) as [a Ha].
    { intros x Hx. apply filter_In in Hx as [Hx _]. destruct (Hr x Hx) as [c Hc].
      unfold sub_value. rewrite Hc. now exists (ct_value c). }
    rewrite Ha. eauto.
  - intros sid now. unfold approve_submission.
    destruct (find_submission (submissions st) sid) as [s|] eqn:Hs; [|discriminate].
    unfold find_submission in Hs. apply find_some in Hs as [Hin _].
    destruct (Hr s Hin) as [c ->]. discriminate.
Qed.

